(** * prompt-site: the /api/generate request handler of [src/server.js]

    A shallow embedding of the helper functions and of the request handler
    of [src/server.js], followed by the properties of the specification
    that concern them.

    JavaScript strings are sequences of UTF-16 code units, so a string is
    a [list N] here and [String.prototype.length] is [List.length].
    Uploaded file contents ([Buffer]) are lists of bytes.  The
    ECMAScript and Node built-ins the source calls ([trim], [slice],
    [lastIndexOf], [replaceAll], [join], [Buffer.toString]) are written
    out from their language definitions; the third-party parsers and the
    completion client, whose code is not part of the repository, are the
    fields of the record [Host]. *)

From Stdlib Require Import List Bool ZArith NArith Lia.
From Stdlib Require Import Ascii String Decimal DecimalN.
From Stdlib.Strings Require Import Byte.
Import ListNotations.

Set Implicit Arguments.

(* ------------------------------------------------------------------ *)
(** ** JavaScript strings *)

Module JS.

Local Open Scope N_scope.

(** A UTF-16 code unit. *)
Definition code_unit := N.

(** A JavaScript string value. *)
Definition jsstring := list code_unit.

(** [s.length], as a JavaScript number. *)
Definition length (s : jsstring) : Z := Z.of_nat (List.length s).

Fixpoint eqb (a b : jsstring) : bool :=
  match a, b with
  | [], [] => true
  | x :: a', y :: b' => N.eqb x y && eqb a' b'
  | _, _ => false
  end.

(** JavaScript truthiness of a string: only the empty string is falsy. *)
Definition truthy (s : jsstring) : bool :=
  match s with [] => false | _ :: _ => true end.

(** [a || b] on strings. *)
Definition or_else (a b : jsstring) : jsstring :=
  if truthy a then a else b.

(** *** UTF-8 decoding: [Buffer.prototype.toString("utf8")]

    The decoder of the WHATWG Encoding Standard, which Node follows: an
    ill-formed sequence yields one U+FFFD per maximal ill-formed prefix
    and the offending byte is read again as the start of a sequence.
    [Buffer.toString] does not strip a byte order mark. *)

Inductive utf8_state :=
| Utf8Start
| Utf8Cont (cp : N) (remaining : nat) (lower upper : N).

Definition between (lo hi b : N) : bool := N.leb lo b && N.leb b hi.

Definition utf8_lead (b : N) : list N * utf8_state :=
  if N.leb b 0x7F then ([b], Utf8Start)
  else if between 0xC2 0xDF b then
    ([], Utf8Cont (N.land b 0x1F) 1%nat 0x80 0xBF)
  else if between 0xE0 0xEF b then
    ([], Utf8Cont (N.land b 0xF) 2%nat
           (if N.eqb b 0xE0 then 0xA0 else 0x80)
           (if N.eqb b 0xED then 0x9F else 0xBF))
  else if between 0xF0 0xF4 b then
    ([], Utf8Cont (N.land b 0x7) 3%nat
           (if N.eqb b 0xF0 then 0x90 else 0x80)
           (if N.eqb b 0xF4 then 0x8F else 0xBF))
  else ([0xFFFD], Utf8Start).

Definition utf8_step (st : utf8_state) (b : N) : list N * utf8_state :=
  match st with
  | Utf8Start => utf8_lead b
  | Utf8Cont cp remaining lower upper =>
      if between lower upper b then
        let cp' := N.lor (N.shiftl cp 6) (N.land b 0x3F) in
        match remaining with
        | S (S r) => ([], Utf8Cont cp' (S r) 0x80 0xBF)
        | _ => ([cp'], Utf8Start)
        end
      else
        let (out, st') := utf8_lead b in (0xFFFD :: out, st')
  end.

Fixpoint utf8_run (st : utf8_state) (bytes : list byte) : list N :=
  match bytes with
  | [] => match st with Utf8Start => [] | Utf8Cont _ _ _ _ => [0xFFFD] end
  | b :: bs =>
      let (out, st') := utf8_step st (Byte.to_N b) in
      out ++ utf8_run st' bs
  end.

(** A code point as one or two UTF-16 code units. *)
Definition utf16_of_code_point (cp : N) : jsstring :=
  if N.ltb cp 0x10000 then [cp]
  else
    let c := N.sub cp 0x10000 in
    [N.add 0xD800 (N.div c 0x400); N.add 0xDC00 (N.modulo c 0x400)].

Definition Buffer_toString_utf8 (buf : list byte) : jsstring :=
  flat_map utf16_of_code_point (utf8_run Utf8Start buf).

(** A string literal of the source file, which is UTF-8 encoded. *)
Definition lit (s : string) : jsstring :=
  Buffer_toString_utf8 (list_byte_of_string s).

(** The escape [\n]. *)
Definition NL : jsstring := [10].

(** *** Base64: [Buffer.prototype.toString("base64")] (RFC 4648, padded) *)

Definition base64_alphabet : jsstring :=
  Eval vm_compute in
    lit "ABCDEFGHIJKLMNOPQRSTUVWXYZabcdefghijklmnopqrstuvwxyz0123456789+/".

Definition base64_digit (i : N) : code_unit :=
  nth (N.to_nat i) base64_alphabet 0%N.

Definition base64_pad : code_unit := 61%N.

Fixpoint base64_encode (bytes : list N) : jsstring :=
  match bytes with
  | [] => []
  | [a] =>
      [base64_digit (N.shiftr a 2);
       base64_digit (N.shiftl (N.land a 3) 4);
       base64_pad; base64_pad]
  | [a; b] =>
      [base64_digit (N.shiftr a 2);
       base64_digit (N.lor (N.shiftl (N.land a 3) 4) (N.shiftr b 4));
       base64_digit (N.shiftl (N.land b 15) 2);
       base64_pad]
  | a :: b :: c :: rest =>
      base64_digit (N.shiftr a 2)
      :: base64_digit (N.lor (N.shiftl (N.land a 3) 4) (N.shiftr b 4))
      :: base64_digit (N.lor (N.shiftl (N.land b 15) 2) (N.shiftr c 6))
      :: base64_digit (N.land c 63)
      :: base64_encode rest
  end.

Definition Buffer_toString_base64 (buf : list byte) : jsstring :=
  base64_encode (map Byte.to_N buf).

(** *** [Number.prototype.toString] on a string length *)

Fixpoint digits_of_uint (u : Decimal.uint) : jsstring :=
  match u with
  | Nil => []
  | D0 u' => 48%N :: digits_of_uint u'
  | D1 u' => 49%N :: digits_of_uint u'
  | D2 u' => 50%N :: digits_of_uint u'
  | D3 u' => 51%N :: digits_of_uint u'
  | D4 u' => 52%N :: digits_of_uint u'
  | D5 u' => 53%N :: digits_of_uint u'
  | D6 u' => 54%N :: digits_of_uint u'
  | D7 u' => 55%N :: digits_of_uint u'
  | D8 u' => 56%N :: digits_of_uint u'
  | D9 u' => 57%N :: digits_of_uint u'
  end.

(** The decimal rendering of a non-negative integer, as a template
    literal [`${n}`] produces it. *)
Definition string_of_nat (n : nat) : jsstring :=
  digits_of_uint (N.to_uint (N.of_nat n)).

(** Reading a decimal numeral back; used to state what a rendered
    number says. *)
Fixpoint uint_of_digits (s : jsstring) : option Decimal.uint :=
  match s with
  | [] => Some Nil
  | c :: s' =>
      match uint_of_digits s' with
      | None => None
      | Some u =>
          match c with
          | 48 => Some (D0 u) | 49 => Some (D1 u) | 50 => Some (D2 u)
          | 51 => Some (D3 u) | 52 => Some (D4 u) | 53 => Some (D5 u)
          | 54 => Some (D6 u) | 55 => Some (D7 u) | 56 => Some (D8 u)
          | 57 => Some (D9 u)
          | _ => None
          end%N
      end
  end.

Definition nat_of_string (s : jsstring) : option nat :=
  match s with
  | [] => None
  | _ => option_map (fun u => N.to_nat (N.of_uint u)) (uint_of_digits s)
  end.

(** *** [String.prototype.trim] *)

(** WhiteSpace and LineTerminator of ECMAScript: TAB, LF, VT, FF, CR,
    SP, NBSP, U+1680, U+2000..U+200A, U+2028, U+2029, U+202F, U+205F,
    U+3000 and U+FEFF. *)
Definition is_white_space (c : code_unit) : bool :=
  (between 0x09 0x0D c
   || N.eqb c 0x20 || N.eqb c 0xA0 || N.eqb c 0x1680
   || between 0x2000 0x200A c
   || N.eqb c 0x2028 || N.eqb c 0x2029 || N.eqb c 0x202F
   || N.eqb c 0x205F || N.eqb c 0x3000 || N.eqb c 0xFEFF)%bool.

Fixpoint trimStart (s : jsstring) : jsstring :=
  match s with
  | [] => []
  | c :: s' => if is_white_space c then trimStart s' else s
  end.

Definition trimEnd (s : jsstring) : jsstring := List.rev (trimStart (List.rev s)).

Definition trim (s : jsstring) : jsstring := trimEnd (trimStart s).

(** *** [String.prototype.slice] *)

Definition relative_index (len i : Z) : Z :=
  (if Z.ltb i 0 then Z.max (len + i) 0 else Z.min i len)%Z.

(** [s.slice(start, end)]; [end_ = None] is an omitted [end]. *)
Definition slice (s : jsstring) (start : Z) (end_ : option Z) : jsstring :=
  let len := length s in
  let from := relative_index len start in
  let to := match end_ with None => len | Some e => relative_index len e end in
  firstn (Z.to_nat (to - from)%Z) (skipn (Z.to_nat from) s).

(** *** [String.prototype.lastIndexOf] *)

Fixpoint startsWith (pat s : jsstring) : bool :=
  match pat, s with
  | [], _ => true
  | _ :: _, [] => false
  | p :: pat', c :: s' => N.eqb p c && startsWith pat' s'
  end.

Fixpoint lastIndexOf_from (pat s : jsstring) (i last : Z) : Z :=
  let last' := if startsWith pat s then i else last in
  match s with
  | [] => last'
  | _ :: s' => lastIndexOf_from pat s' (i + 1)%Z last'
  end.

(** [s.lastIndexOf(pat)]: the greatest index at which [pat] occurs, or -1. *)
Definition lastIndexOf (s pat : jsstring) : Z :=
  lastIndexOf_from pat s 0%Z (-1)%Z.

(** *** [Array.prototype.join] on an array of strings *)

Fixpoint join (sep : jsstring) (parts : list jsstring) : jsstring :=
  match parts with
  | [] => []
  | [x] => x
  | x :: rest => x ++ sep ++ join sep rest
  end.

(** *** [String.prototype.toLowerCase]

    On a string of ASCII code units the result maps [A]..[Z] to
    [a]..[z] and nothing else.  The Unicode case tables that decide the
    result on other strings are a parameter. *)

Definition is_ascii (c : code_unit) : bool := N.leb c 0x7F.

Definition ascii_lower (c : code_unit) : code_unit :=
  if between 0x41 0x5A c then N.add c 0x20 else c.

Definition toLowerCase (unicode_lower : jsstring -> jsstring)
    (s : jsstring) : jsstring :=
  if forallb is_ascii s then map ascii_lower s else unicode_lower s.

(** *** [String.prototype.replaceAll] with a string pattern

    Matches are found left to right and do not overlap; after a match
    the search resumes [max 1 (length pat)] code units later.  Each match
    is replaced by [GetSubstitution], which expands [$$], [$&], [$`] and
    [$'] in the replacement text; with a string pattern there are no
    captures, so [$1], [$<name>] and a lone [$] stand for themselves. *)

Definition dollar : code_unit := 36%N.

Fixpoint GetSubstitution (matched before after template : jsstring)
    : jsstring :=
  match template with
  | [] => []
  | c :: rest =>
      if N.eqb c dollar then
        match rest with
        | d :: rest' =>
            if N.eqb d 36 then dollar :: GetSubstitution matched before after rest'
            else if N.eqb d 96 then before ++ GetSubstitution matched before after rest'
            else if N.eqb d 38 then matched ++ GetSubstitution matched before after rest'
            else if N.eqb d 39 then after ++ GetSubstitution matched before after rest'
            else c :: GetSubstitution matched before after rest
        | [] => [c]
        end
      else c :: GetSubstitution matched before after rest
  end.

(** The scan of [replaceAll]: [before] holds, reversed, the code units of
    the subject already passed; [skip] counts the code units of the
    current match still to be passed over. *)
Fixpoint replaceAll_scan (pat rep : jsstring) (before : jsstring)
    (skip : nat) (s : jsstring) : jsstring :=
  match s with
  | [] =>
      match pat, skip with
      | [], O => GetSubstitution pat (List.rev before) [] rep
      | _, _ => []
      end
  | c :: s' =>
      match skip with
      | S k => replaceAll_scan pat rep (c :: before) k s'
      | O =>
          if startsWith pat s then
            GetSubstitution pat (List.rev before) (skipn (List.length pat) s) rep
            ++ match pat with
               | [] => c :: replaceAll_scan pat rep (c :: before) 0%nat s'
               | _ :: pat' =>
                   replaceAll_scan pat rep (c :: before) (List.length pat') s'
               end
          else c :: replaceAll_scan pat rep (c :: before) 0%nat s'
      end
  end.

Definition replaceAll (s pat rep : jsstring) : jsstring :=
  replaceAll_scan pat rep [] 0%nat s.

End JS.

Abbreviation jsstring := JS.jsstring.

(* ------------------------------------------------------------------ *)
(** ** The helper functions of [src/server.js] *)

Module Server.

Import JS.

Local Open Scope N_scope.

(** [safe(v, fallback = "")]; [None] is an absent ([undefined] or
    [null]) value. *)
Definition safe (v : option jsstring) (fallback : jsstring) : jsstring :=
  let s := trim (match v with Some x => x | None => [] end) in
  if Nat.eqb (List.length s) 0 then fallback else s.

Definition rubric_rule : jsstring :=
  lit "────────────────────".
Definition rubric_heading : jsstring :=
  lit "【補充：評分規則／rubric（輸入資料的一部分）】".

Definition buildInputBundle (contextDocuments rubricInput : option jsstring)
    : jsstring :=
  let ctx := safe contextDocuments [] in
  let rb := safe rubricInput [] in
  if negb (truthy rb) then ctx
  else join NL [ctx; []; rubric_rule; rubric_heading; rb].

(** The object [payload] handed to [buildPrompt]. *)
Record Payload := {
  contextDocuments : jsstring;
  trainingGoal : jsstring;
  traineeRole : jsstring;
  personaRole : jsstring;
  scenarioType : jsstring;
  coachRole : jsstring;
  customerName : jsstring
}.

Definition buildPrompt (template : jsstring) (payload : Payload) : jsstring :=
  replaceAll
    (replaceAll
      (replaceAll
        (replaceAll
          (replaceAll
            (replaceAll
              (replaceAll template
                (lit "{{CONTEXT_DOCUMENTS}}") (contextDocuments payload))
              (lit "{{TRAINING_GOAL}}") (trainingGoal payload))
            (lit "{{TRAINEE_ROLE}}") (traineeRole payload))
          (lit "{{PERSONA_ROLE}}") (personaRole payload))
        (lit "{{SCENARIO_TYPE}}") (scenarioType payload))
      (lit "{{COACH_ROLE}}") (coachRole payload))
    (lit "{{CUSTOMER_NAME}}") (customerName payload).

(** The template literal appended by [clampText] to a truncated text. *)
Definition clamp_notice (original_length : nat) : jsstring :=
  NL ++ NL ++ lit "(…已截斷，原長度 " ++ string_of_nat original_length
     ++ lit " chars)".

(** The default value of the parameter [maxChars]. *)
Definition default_maxChars : Z := 80000.

(** [clampText(s, maxChars = 80000)]; on a string [s], [(s ?? "")] and
    [toString] leave it as it is. *)
Definition clampText (s : jsstring) (maxChars : Z) : jsstring :=
  let text := s in
  if Z.leb (length text) maxChars then text
  else slice text 0 (Some maxChars) ++ clamp_notice (List.length text).

Definition isSupportedTextExt (ext : jsstring) : bool :=
  eqb ext (lit "txt") || eqb ext (lit "csv") || eqb ext (lit "md")
  || eqb ext (lit "json").
Definition isSupportedExcelExt (ext : jsstring) : bool :=
  eqb ext (lit "xlsx") || eqb ext (lit "xls").
Definition isSupportedImageExt (ext : jsstring) : bool :=
  eqb ext (lit "png") || eqb ext (lit "jpg") || eqb ext (lit "jpeg")
  || eqb ext (lit "webp").
Definition isSupportedPdfExt (ext : jsstring) : bool := eqb ext (lit "pdf").
Definition isSupportedDocxExt (ext : jsstring) : bool := eqb ext (lit "docx").
Definition isSupportedPptxExt (ext : jsstring) : bool := eqb ext (lit "pptx").

(** *** Merging a field's text with its attachment chunks
    (the constants [mergedContext] and [mergedRubric] of the handler) *)

Definition context_banner : jsstring := lit "【逐字稿欄附件彙整】".
Definition rubric_banner : jsstring := lit "【評分表欄附件彙整】".

Definition mergedContext (baseContext : jsstring)
    (contextTextChunks : list jsstring) : jsstring :=
  join []
    [baseContext;
     if negb (Nat.eqb (List.length contextTextChunks) 0)
     then (NL ++ NL ++ context_banner ++ NL) ++ join (NL ++ NL) contextTextChunks
     else []].

Definition mergedRubric (baseRubric : jsstring)
    (rubricTextChunks : list jsstring) : jsstring :=
  join []
    [baseRubric;
     if negb (Nat.eqb (List.length rubricTextChunks) 0)
     then (NL ++ NL ++ rubric_banner ++ NL) ++ join (NL ++ NL) rubricTextChunks
     else []].

(** The object literal [payload] of the handler: only the transcript
    bundle comes from the request. *)
Definition payload (contextBundle : jsstring) : Payload :=
  {| contextDocuments :=
       safe (Some contextBundle) (lit "（此處貼上逐字稿或檢核點）");
     trainingGoal :=
       lit "（未提供：請 AI 自行判斷並在輸出中明確定義訓練目標）";
     traineeRole := lit "（未提供：請 AI 自行判斷學員角色）";
     personaRole := lit "（未提供：請 AI 自行判斷對練角色類型）";
     scenarioType :=
       lit "（未提供：請 AI 自行判斷並在輸出中明確定義情境類型）";
     coachRole := lit "（未提供）";
     customerName := lit "（未提供）" |}.

(* ------------------------------------------------------------------ *)
(** ** The request handler *)

(** What an awaited call into a library gives: a value, or an exception
    whose [message] may be missing. *)
Inductive Outcome (A : Type) :=
| Resolved (a : A)
| Rejected (message : option jsstring).
Arguments Resolved {A} a.
Arguments Rejected {A} message.

Record File := {
  originalname : jsstring;
  buffer : list byte;
  size : N
}.

Record ImageInput := { image_url : jsstring }.

Record Slide := {
  slide_id : option jsstring;
  slide_text : option (list jsstring)
}.

Record CompletionRequest := {
  model : jsstring;
  instructions : jsstring;
  input_text : jsstring;
  input_images : list ImageInput
}.

(** The JSON body of a response: [{ ok: false, error }] or
    [{ ok: true, output }]. *)
Inductive ResponseBody :=
| Failure (error : jsstring)
| Success (output : jsstring).

Definition ok (b : ResponseBody) : bool :=
  match b with Failure _ => false | Success _ => true end.

Record Response := { status : N; body : ResponseBody }.

(** The state of the handler's [try] block after a statement: control
    goes on, the handler has returned a response, or an exception is on
    its way to the [catch]. *)
Inductive Step (A : Type) :=
| Next (a : A)
| Return (r : Response)
| Throw (message : option jsstring).
Arguments Next {A} a.
Arguments Return {A} r.
Arguments Throw {A} message.

Definition bind {A B : Type} (m : Step A) (k : A -> Step B) : Step B :=
  match m with
  | Next a => k a
  | Return r => Return r
  | Throw e => Throw e
  end.

Definition await {A : Type} (o : Outcome A) : Step A :=
  match o with
  | Resolved a => Next a
  | Rejected e => Throw e
  end.

Notation "x <- m ;; k" := (bind m (fun x => k))
  (at level 61, m at next level, right associativity).

Definition opt_string (v : option jsstring) : jsstring :=
  match v with Some s => s | None => [] end.

Record FormBody := {
  text : option jsstring;
  form_contextDocuments : option jsstring;
  rubricInput : option jsstring
}.

Record Request := {
  req_body : FormBody;
  contextFiles : list File;
  rubricFiles : list File
}.

Inductive Extraction :=
| TextChunk (chunk : jsstring)
| Image (input : ImageInput).

(** The constants [baseContext] and [baseRubric] of the handler: the
    text typed into the transcript field (form field [contextDocuments],
    else [text]) and into the rubric field. *)
Definition baseContext (body : FormBody) : jsstring :=
  or_else (safe (form_contextDocuments body) []) (safe (text body) []).

Definition baseRubric (body : FormBody) : jsstring :=
  safe (rubricInput body) [].

Section Handler.

(** The values of [JSON.parse] and the worksheets of a workbook. *)
Variables json worksheet : Type.

Record Workbook := {
  SheetNames : list jsstring;
  Sheets : jsstring -> option worksheet
}.

(** The built-ins and libraries the handler calls and whose code is not
    in the repository. *)
Record Host := {
  (** [toLowerCase] on a string with a code unit outside ASCII *)
  unicode_toLowerCase : jsstring -> jsstring;
  (** [JSON.parse(content)]; [None] when it throws *)
  JSON_parse : jsstring -> option json;
  (** [JSON.stringify(obj, null, 2)] *)
  JSON_stringify : json -> jsstring;
  (** [XLSX.read(buffer, { type: "buffer" })] *)
  XLSX_read : list byte -> Outcome Workbook;
  (** [XLSX.utils.sheet_to_csv(ws)] *)
  XLSX_sheet_to_csv : option worksheet -> Outcome jsstring;
  (** [(await pdfParse(buffer))?.text] *)
  pdfParse : list byte -> Outcome (option jsstring);
  (** [(await mammoth.extractRawText({ buffer }))?.value] *)
  mammoth_extractRawText : list byte -> Outcome (option jsstring);
  (** staging the buffer in a temporary file and
      [new PptxParser(tmpPath).extractText()] *)
  PptxParser_extractText : list byte -> Outcome (list Slide);
  (** the contents of [template.txt], if the file exists *)
  template_txt : option jsstring;
  (** [process.env.OPENAI_MODEL] *)
  env_OPENAI_MODEL : option jsstring;
  (** [(await client.responses.create(request)).output_text] *)
  responses_create : CompletionRequest -> Outcome (option jsstring)
}.

Variable host : Host.

Definition getExt (filename : jsstring) : jsstring :=
  let i := lastIndexOf filename (lit ".") in
  if Z.leb 0 i
  then toLowerCase (unicode_toLowerCase host) (slice filename (i + 1)%Z None)
  else [].

Definition loadTemplate : Step jsstring :=
  match template_txt host with
  | None =>
      Throw (Some (lit "找不到 template.txt。請在專案根目錄建立 template.txt，並把你的完整 prompt 原封不動貼進去。"))
  | Some contents => Next contents
  end.

Fixpoint excel_lines (wb : Workbook) (names : list jsstring)
    (lines : list jsstring) : Step (list jsstring) :=
  match names with
  | [] => Next lines
  | sheetName :: rest =>
      let ws := Sheets wb sheetName in
      csv <- await (XLSX_sheet_to_csv host ws) ;;
      excel_lines wb rest
        (lines ++ [lit "--- Sheet: " ++ sheetName ++ lit " ---" ++ NL ++ csv])
  end.

Definition excelBufferToText (buffer : list byte) : Step jsstring :=
  wb <- await (XLSX_read host buffer) ;;
  lines <- excel_lines wb (SheetNames wb) [] ;;
  Next (join (NL ++ NL) lines).

Fixpoint slide_lines (slides : list Slide) (lines : list jsstring)
    : list jsstring :=
  match slides with
  | [] => lines
  | slide :: rest =>
      let id := match slide_id slide with Some i => i | None => lit "unknown" end in
      let text := match slide_text slide with Some t => join NL t | None => [] end in
      slide_lines rest
        (lines ++ [lit "--- Slide: " ++ id ++ lit " ---" ++ NL ++ text])
  end.

Definition pptxBufferToText (buffer : list byte) : Step jsstring :=
  slides <- await (PptxParser_extractText host buffer) ;;
  Next (join (NL ++ NL) (slide_lines slides [])).

(** The [try] block of the JSON branch: a failed parse leaves [content]
    as it is. *)
Definition json_content (content : jsstring) : jsstring :=
  match JSON_parse host content with
  | Some obj => JSON_stringify host obj
  | None => content
  end.

Definition bad_request (message : jsstring) : Response :=
  {| status := 400; body := Failure message |}.

Definition pdf_fallback : jsstring :=
  lit "（此 PDF 可能為掃描檔，未能解析出文字）".
Definition docx_fallback : jsstring := lit "（此 Word 檔未能解析出文字）".
Definition pptx_fallback : jsstring := lit "（此 PPTX 未能解析出文字）".

(** The body of [for (const f of contextFiles)]: what the iteration
    pushes, unless it returns a response or throws. *)
Definition contextFileStep (f : File) : Step Extraction :=
  let ext := getExt (originalname f) in
  if isSupportedTextExt ext then
    let content := Buffer_toString_utf8 (buffer f) in
    let content := if eqb ext (lit "json") then json_content content else content in
    Next (TextChunk
      (lit "[逐字稿附件文字：" ++ originalname f ++ lit "]" ++ NL
         ++ clampText content default_maxChars))
  else if isSupportedExcelExt ext then
    csvText <- excelBufferToText (buffer f) ;;
    Next (TextChunk
      (lit "[逐字稿附件Excel：" ++ originalname f ++ lit "]" ++ NL
         ++ clampText csvText default_maxChars))
  else if isSupportedPdfExt ext then
    data <- await (pdfParse host (buffer f)) ;;
    let pdfText := trim (opt_string data) in
    Next (TextChunk
      (lit "[逐字稿附件PDF：" ++ originalname f ++ lit "]" ++ NL
         ++ (if truthy pdfText then clampText pdfText default_maxChars
             else pdf_fallback)))
  else if isSupportedDocxExt ext then
    result <- await (mammoth_extractRawText host (buffer f)) ;;
    let docText := trim (opt_string result) in
    Next (TextChunk
      (lit "[逐字稿附件Word：" ++ originalname f ++ lit "]" ++ NL
         ++ (if truthy docText then clampText docText default_maxChars
             else docx_fallback)))
  else if isSupportedPptxExt ext then
    pptText <- pptxBufferToText (buffer f) ;;
    Next (TextChunk
      (lit "[逐字稿附件PPTX：" ++ originalname f ++ lit "]" ++ NL
         ++ (if truthy (trim pptText) then clampText pptText default_maxChars
             else pptx_fallback)))
  else if isSupportedImageExt ext then
    let mime :=
      if eqb ext (lit "png") then lit "image/png"
      else if eqb ext (lit "webp") then lit "image/webp"
      else lit "image/jpeg" in
    let base64 := Buffer_toString_base64 (buffer f) in
    let dataUrl := lit "data:" ++ mime ++ lit ";base64," ++ base64 in
    Next (Image {| image_url := dataUrl |})
  else
    Return (bad_request (lit "逐字稿欄不支援的檔案格式：" ++ originalname f)).

Fixpoint contextLoop (files : list File) (contextTextChunks : list jsstring)
    (imageInputs : list ImageInput)
    : Step (list jsstring * list ImageInput) :=
  match files with
  | [] => Next (contextTextChunks, imageInputs)
  | f :: rest =>
      x <- contextFileStep f ;;
      match x with
      | TextChunk chunk =>
          contextLoop rest (contextTextChunks ++ [chunk]) imageInputs
      | Image input =>
          contextLoop rest contextTextChunks (imageInputs ++ [input])
      end
  end.

(** The body of [for (const f of rubricFiles)]. *)
Definition rubricFileStep (f : File) : Step jsstring :=
  let ext := getExt (originalname f) in
  if isSupportedImageExt ext then
    Return (bad_request (lit "評分表欄不接受圖片檔：" ++ originalname f))
  else if isSupportedTextExt ext then
    let content := Buffer_toString_utf8 (buffer f) in
    let content := if eqb ext (lit "json") then json_content content else content in
    Next (lit "[評分表附件文字：" ++ originalname f ++ lit "]" ++ NL
            ++ clampText content default_maxChars)
  else if isSupportedExcelExt ext then
    csvText <- excelBufferToText (buffer f) ;;
    Next (lit "[評分表附件Excel：" ++ originalname f ++ lit "]" ++ NL
            ++ clampText csvText default_maxChars)
  else if isSupportedPdfExt ext then
    data <- await (pdfParse host (buffer f)) ;;
    let pdfText := trim (opt_string data) in
    Next (lit "[評分表附件PDF：" ++ originalname f ++ lit "]" ++ NL
            ++ (if truthy pdfText then clampText pdfText default_maxChars
                else pdf_fallback))
  else if isSupportedDocxExt ext then
    result <- await (mammoth_extractRawText host (buffer f)) ;;
    let docText := trim (opt_string result) in
    Next (lit "[評分表附件Word：" ++ originalname f ++ lit "]" ++ NL
            ++ (if truthy docText then clampText docText default_maxChars
                else docx_fallback))
  else if isSupportedPptxExt ext then
    pptText <- pptxBufferToText (buffer f) ;;
    Next (lit "[評分表附件PPTX：" ++ originalname f ++ lit "]" ++ NL
            ++ (if truthy (trim pptText) then clampText pptText default_maxChars
                else pptx_fallback))
  else
    Return (bad_request (lit "評分表欄不支援的檔案格式：" ++ originalname f)).

Fixpoint rubricLoop (files : list File) (rubricTextChunks : list jsstring)
    : Step (list jsstring) :=
  match files with
  | [] => Next rubricTextChunks
  | f :: rest =>
      chunk <- rubricFileStep f ;;
      rubricLoop rest (rubricTextChunks ++ [chunk])
  end.

Definition missing_transcript : jsstring :=
  lit "缺少逐字稿內容：請輸入逐字稿文字或上傳逐字稿檔案。".

Definition system_instructions : jsstring :=
  lit "你是嚴格遵守格式與禁止事項的情境腳本 Prompt 工程師。只輸出使用者要求的內容，不要多說。".

(** The [try] block up to the call of the completion client: the
    request it is about to send. *)
Definition prepare (req : Request) : Step CompletionRequest :=
  let baseContext := baseContext (req_body req) in
  let baseRubric := baseRubric (req_body req) in
  parsed <- contextLoop (contextFiles req) [] [] ;;
  let contextTextChunks := fst parsed in
  let imageInputs := snd parsed in
  rubricTextChunks <- rubricLoop (rubricFiles req) [] ;;
  let mergedContext := mergedContext baseContext contextTextChunks in
  let mergedRubric := mergedRubric baseRubric rubricTextChunks in
  if negb (truthy (safe (Some mergedContext) []))
     && Nat.eqb (List.length imageInputs) 0
  then Return (bad_request missing_transcript)
  else
    let contextBundle :=
      buildInputBundle (Some mergedContext) (Some mergedRubric) in
    let payload := payload contextBundle in
    template <- loadTemplate ;;
    let prompt := buildPrompt template payload in
    let model := or_else (opt_string (env_OPENAI_MODEL host)) (lit "gpt-5-mini") in
    Next {| model := model;
            instructions := system_instructions;
            input_text := prompt;
            input_images := imageInputs |}.

(** The [catch] clause: status 500 with [err?.message || "Unknown error"]. *)
Definition internal_error (message : option jsstring) : Response :=
  {| status := 500;
     body := Failure (or_else (opt_string message) (lit "Unknown error")) |}.

(** The handler of [POST /api/generate]: the response sent, and the
    requests made to the completion client while producing it. *)
Definition generate (req : Request) : Response * list CompletionRequest :=
  match prepare req with
  | Return r => (r, [])
  | Throw err => (internal_error err, [])
  | Next request =>
      match responses_create host request with
      | Resolved output_text =>
          ({| status := 200; body := Success (opt_string output_text) |},
           [request])
      | Rejected err => (internal_error err, [request])
      end
  end.

End Handler.

End Server.

(* ------------------------------------------------------------------ *)
(** ** The earlier handler, of [src/unnamed/part_000]

    The first version of the server takes a JSON body and no files.  Its
    functions [safe], [buildInputBundle], [loadTemplate] and
    [buildPrompt] and its object [payload] are, letter for letter, those
    of [src/server.js]. *)

Module ServerV0.

Import JS.
Import Server.

(** The argument of [client.responses.create]: the prompt is the
    [input] itself. *)
Record CompletionRequest := {
  model : jsstring;
  instructions : jsstring;
  input : jsstring
}.

Definition missing_contextDocuments : jsstring :=
  lit "缺少 contextDocuments（逐字稿／檢核點）。".

Definition system_instructions : jsstring :=
  lit "你是嚴格遵守格式與禁止事項的情境腳本 Prompt 工程師。只輸出使用者要求的內容，不要多說。額外硬性要求：輸出的 Persona Prompt 必須包含『主題鎖定（Topic Lock）＋完成條件（Completion Gate）＋衍生追問階梯（Follow-up Ladder）＋禁止跳題（No Jumping）』的規則，確保不會從 A 話題未完成就跳到 B。".

Section Handler.

Variables json worksheet : Type.
Variable host : Host json worksheet.

(** [(await client.responses.create(request)).output_text] *)
Variable responses_create : CompletionRequest -> Outcome (option jsstring).

(** The [try] block up to the call of the completion client. *)
Definition prepare (body : FormBody) : Step CompletionRequest :=
  if negb (truthy (safe (form_contextDocuments body) []))
  then Return (bad_request missing_contextDocuments)
  else
    let contextBundle :=
      buildInputBundle (form_contextDocuments body) (rubricInput body) in
    let payload := payload contextBundle in
    template <- loadTemplate host ;;
    let prompt := buildPrompt template payload in
    Next {| model := or_else (opt_string (env_OPENAI_MODEL host)) (lit "gpt-5");
            instructions := system_instructions;
            input := prompt |}.

(** The handler of [POST /api/generate]: the response, and the requests
    made to the completion client. *)
Definition generate (body : FormBody) : Response * list CompletionRequest :=
  match prepare body with
  | Return r => (r, [])
  | Throw err => (internal_error err, [])
  | Next request =>
      match responses_create request with
      | Resolved output_text =>
          ({| status := 200; body := Success (opt_string output_text) |},
           [request])
      | Rejected err => (internal_error err, [request])
      end
  end.

End Handler.

End ServerV0.

(* ------------------------------------------------------------------ *)
(** ** Vocabulary of the statements *)

Import Server.

Unset Implicit Arguments.

Local Open Scope Z_scope.

(** The two constant parts of the truncation notice. *)
Definition clamp_notice_head : jsstring :=
  JS.NL ++ JS.NL ++ JS.lit "(…已截斷，原長度 ".
Definition clamp_notice_tail : jsstring := JS.lit " chars)".

(** The seven placeholders of the template, in the order in which
    [buildPrompt] substitutes them. *)
Inductive Field :=
| ContextDocuments | TrainingGoal | TraineeRole | PersonaRole
| ScenarioType | CoachRole | CustomerName.

Definition placeholder (f : Field) : jsstring :=
  match f with
  | ContextDocuments => JS.lit "{{CONTEXT_DOCUMENTS}}"
  | TrainingGoal => JS.lit "{{TRAINING_GOAL}}"
  | TraineeRole => JS.lit "{{TRAINEE_ROLE}}"
  | PersonaRole => JS.lit "{{PERSONA_ROLE}}"
  | ScenarioType => JS.lit "{{SCENARIO_TYPE}}"
  | CoachRole => JS.lit "{{COACH_ROLE}}"
  | CustomerName => JS.lit "{{CUSTOMER_NAME}}"
  end.

Definition field_text (p : Payload) (f : Field) : jsstring :=
  match f with
  | ContextDocuments => contextDocuments p
  | TrainingGoal => trainingGoal p
  | TraineeRole => traineeRole p
  | PersonaRole => personaRole p
  | ScenarioType => scenarioType p
  | CoachRole => coachRole p
  | CustomerName => customerName p
  end.

Definition source_order : list Field :=
  [ContextDocuments; TrainingGoal; TraineeRole; PersonaRole;
   ScenarioType; CoachRole; CustomerName].

(** The six fields the end user cannot supply. *)
Definition inferred_fields : list Field :=
  [TrainingGoal; TraineeRole; PersonaRole; ScenarioType; CoachRole;
   CustomerName].

(** One [replaceAll] pass per field, in the given order. *)
Definition substitute_in_order (order : list Field) (template : jsstring)
    (p : Payload) : jsstring :=
  fold_left (fun t f => JS.replaceAll t (placeholder f) (field_text p f))
            order template.

(** A template seen as literal text interleaved with placeholders. *)
Inductive Piece :=
| Text (s : jsstring)
| Slot (f : Field).

Fixpoint render (pieces : list Piece) : jsstring :=
  match pieces with
  | [] => []
  | Text s :: rest => s ++ render rest
  | Slot f :: rest => placeholder f ++ render rest
  end.

(** The template with every placeholder replaced by its field text, all
    at once. *)
Fixpoint fill (p : Payload) (pieces : list Piece) : jsstring :=
  match pieces with
  | [] => []
  | Text s :: rest => s ++ fill p rest
  | Slot f :: rest => field_text p f ++ fill p rest
  end.

Definition open_brace : JS.code_unit := 123%N.

(** No [{{] inside the text and no [{] at its end: no placeholder can
    start in it. *)
Fixpoint brace_free (s : jsstring) : bool :=
  match s with
  | [] => true
  | c :: s' =>
      (if N.eqb c open_brace
       then match s' with
            | [] => false
            | d :: _ => negb (N.eqb d open_brace)
            end
       else true)
      && brace_free s'
  end.

(** None of the sequences [$$], [$&], [$`], [$'] that [replaceAll]
    expands in a replacement text. *)
Fixpoint dollar_free (s : jsstring) : bool :=
  match s with
  | [] => true
  | c :: s' =>
      (if N.eqb c JS.dollar
       then match s' with
            | [] => true
            | d :: _ =>
                negb (N.eqb d 36 || N.eqb d 96 || N.eqb d 38 || N.eqb d 39)
            end
       else true)
      && dollar_free s'
  end.

Definition piece_ok (x : Piece) : bool :=
  match x with Text s => brace_free s | Slot _ => true end.

Definition Field_eqb (f g : Field) : bool :=
  match f, g with
  | ContextDocuments, ContextDocuments | TrainingGoal, TrainingGoal
  | TraineeRole, TraineeRole | PersonaRole, PersonaRole
  | ScenarioType, ScenarioType | CoachRole, CoachRole
  | CustomerName, CustomerName => true
  | _, _ => false
  end.

(** Replacing the slots of one field by a text. *)
Definition subst1 (f : Field) (rep : jsstring) (pieces : list Piece)
    : list Piece :=
  map (fun x => match x with
                | Slot g => if Field_eqb f g then Text rep else Slot g
                | Text s => Text s
                end) pieces.

(** Replacing the slots field by field, in the given order. *)
Definition subst_pieces (p : Payload) (order : list Field)
    (pieces : list Piece) : list Piece :=
  fold_left (fun ps f => subst1 f (field_text p f) ps) order pieces.

(** [order] names every field at least once. *)
Definition covers_all_fields (order : list Field) : bool :=
  forallb (fun f => existsb (Field_eqb f) order) source_order.

(** Every field text of [p] is free of [$]-patterns and cannot start a
    placeholder. *)
Definition plain_payload (p : Payload) : bool :=
  forallb (fun f => dollar_free (field_text p f) && brace_free (field_text p f))
          source_order.

(** The text the handler puts in the payload for a field whatever the
    request is: the payload of the empty transcript bundle. *)
Definition marker (f : Field) : jsstring := field_text (payload []) f.

(** A template and a payload on which the order of the passes shows:
    the transcript text is itself the training-goal placeholder. *)
Definition nested_template : jsstring := render [Slot ContextDocuments].
Definition nested_payload : Payload := payload (placeholder TrainingGoal).

Definition sample_pieces : list Piece :=
  [Text (JS.lit "Goal: "); Slot TrainingGoal; Text (JS.lit " {x} ");
   Slot ContextDocuments; Slot TrainingGoal].

(** The text chunks and the image inputs among what the transcript
    attachments produced, each in the order of production. *)
Fixpoint chunks_of (items : list Extraction) : list jsstring :=
  match items with
  | [] => []
  | TextChunk c :: rest => c :: chunks_of rest
  | Image _ :: rest => chunks_of rest
  end.

Fixpoint images_of (items : list Extraction) : list ImageInput :=
  match items with
  | [] => []
  | TextChunk _ :: rest => images_of rest
  | Image i :: rest => i :: images_of rest
  end.

(** [message] contains [name]. *)
Fixpoint mentions (message name : jsstring) : bool :=
  JS.startsWith name message
  || match message with
     | [] => false
     | _ :: rest => mentions rest name
     end.

(** The registered media type of the image formats, by file extension. *)
Definition media_type (ext : jsstring) : option jsstring :=
  if JS.eqb ext (JS.lit "png") then Some (JS.lit "image/png")
  else if JS.eqb ext (JS.lit "jpg") then Some (JS.lit "image/jpeg")
  else if JS.eqb ext (JS.lit "jpeg") then Some (JS.lit "image/jpeg")
  else if JS.eqb ext (JS.lit "webp") then Some (JS.lit "image/webp")
  else None.

(** Decoding of padded Base64 (RFC 4648), to state what an encoded
    payload stands for. *)
Fixpoint index_of (c : JS.code_unit) (l : jsstring) (i : N) : option N :=
  match l with
  | [] => None
  | d :: l' => if N.eqb c d then Some i else index_of c l' (i + 1)%N
  end.

Definition base64_value (c : JS.code_unit) : option N :=
  index_of c JS.base64_alphabet 0%N.

Definition base64_quad (q : JS.code_unit * JS.code_unit * JS.code_unit * JS.code_unit)
    : option (list N) :=
  let '(c1, c2, c3, c4) := q in
  match base64_value c1, base64_value c2 with
  | Some v1, Some v2 =>
      let b1 := N.lor (N.shiftl v1 2) (N.shiftr v2 4) in
      if N.eqb c3 JS.base64_pad then
        if N.eqb c4 JS.base64_pad then Some [b1] else None
      else
        match base64_value c3 with
        | Some v3 =>
            let b2 := N.lor (N.shiftl (N.land v2 15) 4) (N.shiftr v3 2) in
            if N.eqb c4 JS.base64_pad then Some [b1; b2]
            else
              match base64_value c4 with
              | Some v4 =>
                  Some [b1; b2; N.lor (N.shiftl (N.land v3 3) 6) v4]
              | None => None
              end
        | None => None
        end
  | _, _ => None
  end.

Fixpoint base64_decode (s : jsstring) : option (list N) :=
  match s with
  | [] => Some []
  | c1 :: c2 :: c3 :: c4 :: rest =>
      match base64_quad (c1, c2, c3, c4), base64_decode rest with
      | Some bytes, Some more =>
          match rest with
          | [] => Some bytes
          | _ => if Nat.eqb (List.length bytes) 3 then Some (bytes ++ more)
                 else None
          end
      | _, _ => None
      end
  | _ => None
  end.

(** The code unit [.]. *)
Definition dot : JS.code_unit := 46%N.

(** A host whose parsers find nothing and whose completion client
    answers [out]; and the same host with a workbook of two sheets. *)
Definition quiet_host : Host unit unit :=
  {| unicode_toLowerCase := fun s => s;
     JSON_parse := fun _ => None;
     JSON_stringify := fun _ => [];
     XLSX_read := fun _ => Rejected None;
     XLSX_sheet_to_csv := fun _ => Rejected None;
     pdfParse := fun _ => Resolved None;
     mammoth_extractRawText := fun _ => Resolved None;
     PptxParser_extractText := fun _ => Resolved [];
     template_txt := Some (JS.lit "{{CONTEXT_DOCUMENTS}}");
     env_OPENAI_MODEL := None;
     responses_create := fun _ => Resolved (Some (JS.lit "out")) |}.

Definition file (name : string) (contents : string) : File :=
  {| originalname := JS.lit name;
     buffer := list_byte_of_string contents;
     size := N.of_nat (String.length contents) |}.

Definition request (typed : option jsstring) (transcript rubric : list File)
    : Request :=
  {| req_body := {| text := None;
                    form_contextDocuments := typed;
                    rubricInput := None |};
     contextFiles := transcript;
     rubricFiles := rubric |}.

(** A host that reads every spreadsheet as a workbook with the sheets
    [Q1] and [Q2]; a worksheet is represented by its CSV rendering. *)
Definition two_sheets : Workbook jsstring :=
  {| SheetNames := [JS.lit "Q1"; JS.lit "Q2"];
     Sheets := fun name =>
       if JS.eqb name (JS.lit "Q1") then Some (JS.lit "a,b")
       else if JS.eqb name (JS.lit "Q2") then Some (JS.lit "c,d")
       else None |}.

Definition sheets_host : Host unit jsstring :=
  {| unicode_toLowerCase := fun s => s;
     JSON_parse := fun _ => None;
     JSON_stringify := fun _ => [];
     XLSX_read := fun _ => Resolved two_sheets;
     XLSX_sheet_to_csv := fun ws =>
       match ws with Some csv => Resolved csv | None => Rejected None end;
     pdfParse := fun _ => Resolved None;
     mammoth_extractRawText := fun _ => Resolved None;
     PptxParser_extractText := fun _ => Resolved [];
     template_txt := Some (JS.lit "{{CONTEXT_DOCUMENTS}}");
     env_OPENAI_MODEL := None;
     responses_create := fun _ => Resolved (Some (JS.lit "out")) |}.

(** The block of one sheet in the text of a workbook. *)
Definition sheet_block (csv_of : jsstring -> jsstring) (sheetName : jsstring)
    : jsstring :=
  JS.lit "--- Sheet: " ++ sheetName ++ JS.lit " ---" ++ JS.NL
    ++ csv_of sheetName.

(** The byte values, and a check of a property of two bytes on all of
    them. *)
Definition all_bytes : list N := map N.of_nat (seq 0 256).

Definition for_all_bytes2 (P : N -> N -> bool) : bool :=
  forallb (fun a => forallb (P a) all_bytes) all_bytes.

(** What decoding needs to know about one sextet: it is read back from
    its digit, and its digit is not the padding sign. *)
Definition sextet_ok (v : N) : bool :=
  match base64_value (JS.base64_digit v) with
  | Some v' => N.eqb v' v
  | None => false
  end
  && negb (N.eqb (JS.base64_digit v) JS.base64_pad).

(** Two requests whose rejection is decided by an earlier check than
    the one a later attachment or the empty transcript would fail: no
    transcript at all but an image among the rubric attachments; and an
    unsupported rubric attachment submitted before an image. *)
Definition rubric_image_only : Request :=
  request None [] [file "r.png" "x"].

Definition two_bad_rubric_files : Request :=
  request (Some (JS.lit "hi")) [] [file "a.exe" "x"; file "b.png" "y"].

(** The quiet host without its [template.txt]. *)
Definition no_template_host : Host unit unit :=
  {| unicode_toLowerCase := unicode_toLowerCase quiet_host;
     JSON_parse := JSON_parse quiet_host;
     JSON_stringify := JSON_stringify quiet_host;
     XLSX_read := XLSX_read quiet_host;
     XLSX_sheet_to_csv := XLSX_sheet_to_csv quiet_host;
     pdfParse := pdfParse quiet_host;
     mammoth_extractRawText := mammoth_extractRawText quiet_host;
     PptxParser_extractText := PptxParser_extractText quiet_host;
     template_txt := None;
     env_OPENAI_MODEL := env_OPENAI_MODEL quiet_host;
     responses_create := responses_create quiet_host |}.

(** The answers of the six extension tests of [src/server.js] on one
    extension. *)
Definition extension_tests (ext : jsstring) : list bool :=
  [isSupportedTextExt ext; isSupportedExcelExt ext; isSupportedImageExt ext;
   isSupportedPdfExt ext; isSupportedDocxExt ext; isSupportedPptxExt ext].

(** The block of one slide in the text of a slide deck. *)
Definition slide_block (slide : Slide) : jsstring :=
  JS.lit "--- Slide: "
    ++ match slide_id slide with Some i => i | None => JS.lit "unknown" end
    ++ JS.lit " ---" ++ JS.NL
    ++ match slide_text slide with Some t => JS.join JS.NL t | None => [] end.

(** A host whose PDF parser throws and whose slide parser finds two
    slides, the second without text. *)
Definition failing_pdf_host : Host unit unit :=
  {| unicode_toLowerCase := unicode_toLowerCase quiet_host;
     JSON_parse := JSON_parse quiet_host;
     JSON_stringify := JSON_stringify quiet_host;
     XLSX_read := XLSX_read quiet_host;
     XLSX_sheet_to_csv := XLSX_sheet_to_csv quiet_host;
     pdfParse := fun _ => Rejected (Some (JS.lit "Invalid PDF structure"));
     mammoth_extractRawText := mammoth_extractRawText quiet_host;
     PptxParser_extractText := fun _ =>
       Resolved [ {| slide_id := Some (JS.lit "1");
                     slide_text := Some [JS.lit "Title"; JS.lit "Body"] |};
                  {| slide_id := None; slide_text := None |} ];
     template_txt := template_txt quiet_host;
     env_OPENAI_MODEL := env_OPENAI_MODEL quiet_host;
     responses_create := responses_create quiet_host |}.

(** A request with one image and nothing else, and what the transcript
    loop makes of the image. *)
Definition photo_request : Request := request None [file "photo.png" "x"] [].

Definition photo_items : list Extraction :=
  [Image {| image_url := JS.lit "data:image/png;base64,eA==" |}].

(** Evaluates the extension tests of the dispatch on a known extension. *)
Ltac eval_bool t :=
  let b := eval vm_compute in t in change t with b.

Ltac eval_dispatch :=
  repeat match goal with
         | |- context [isSupportedTextExt ?e] => eval_bool (isSupportedTextExt e)
         | |- context [isSupportedExcelExt ?e] => eval_bool (isSupportedExcelExt e)
         | |- context [isSupportedPdfExt ?e] => eval_bool (isSupportedPdfExt e)
         | |- context [isSupportedDocxExt ?e] => eval_bool (isSupportedDocxExt e)
         | |- context [isSupportedPptxExt ?e] => eval_bool (isSupportedPptxExt e)
         | |- context [isSupportedImageExt ?e] => eval_bool (isSupportedImageExt e)
         | |- context [JS.eqb (JS.lit ?a) (JS.lit ?b)] =>
             eval_bool (JS.eqb (JS.lit a) (JS.lit b))
         end;
  cbv iota.

Ltac dispatch_on H :=
  unfold contextFileStep, rubricFileStep; rewrite H; eval_dispatch.

(* ------------------------------------------------------------------ *)
(** ** Facts about the string built-ins *)

Lemma jseqb_eq (a b : jsstring) : JS.eqb a b = true <-> a = b.
Proof.
  revert b; induction a as [|x a IH]; intros [|y b]; simpl;
    try (split; intro H; (reflexivity || discriminate)).
  rewrite andb_true_iff, N.eqb_eq, IH.
  split; [intros [-> ->]; reflexivity | intros H; injection H; auto].
Qed.

Lemma jseqb_refl (a : jsstring) : JS.eqb a a = true.
Proof. apply jseqb_eq; reflexivity. Qed.

Lemma uint_of_digits_of_uint (u : Decimal.uint) :
  JS.uint_of_digits (JS.digits_of_uint u) = Some u.
Proof. induction u; simpl; try rewrite IHu; reflexivity. Qed.

Lemma digits_of_uint_nonempty (n : N) :
  JS.digits_of_uint (N.to_uint n) <> [].
Proof.
  destruct n as [|p]; simpl; [discriminate|].
  pose proof (DecimalPos.Unsigned.to_uint_nonnil p) as Hp.
  destruct (Pos.to_uint p); simpl; (congruence || discriminate).
Qed.

(** The decimal rendering of a length reads back as that length. *)
Lemma nat_of_string_of_nat (n : nat) :
  JS.nat_of_string (JS.string_of_nat n) = Some n.
Proof.
  unfold JS.nat_of_string, JS.string_of_nat.
  pose proof (digits_of_uint_nonempty (N.of_nat n)) as Hne.
  destruct (JS.digits_of_uint (N.to_uint (N.of_nat n))) eqn:E; [congruence|].
  rewrite <- E, uint_of_digits_of_uint; simpl.
  rewrite DecimalN.Unsigned.of_to, Nat2N.id; reflexivity.
Qed.

Lemma trimStart_nil_iff (s : jsstring) :
  JS.trimStart s = [] <-> forallb JS.is_white_space s = true.
Proof.
  induction s as [|c s IH]; simpl; [tauto|].
  destruct (JS.is_white_space c); simpl; [exact IH|].
  split; discriminate.
Qed.

(** [trim] leaves nothing exactly when every code unit is white space. *)
Lemma trim_nil_iff (s : jsstring) :
  JS.trim s = [] <-> forallb JS.is_white_space s = true.
Proof.
  unfold JS.trim, JS.trimEnd. split.
  - intros H. apply trimStart_nil_iff.
    destruct (JS.trimStart s) as [|c t] eqn:E; [reflexivity|].
    apply (f_equal (@List.rev _)) in H. rewrite rev_involutive in H.
    change (List.rev []) with (@nil JS.code_unit) in H.
    apply trimStart_nil_iff in H.
    rewrite forallb_forall in H.
    assert (Hc : JS.is_white_space c = true).
    { apply H. rewrite <- in_rev. left; reflexivity. }
    clear H. revert E Hc. clear. induction s as [|d s IH]; simpl; [discriminate|].
    destruct (JS.is_white_space d) eqn:Ed; [exact IH|].
    intros H; injection H as -> _. congruence.
  - intros H. apply trimStart_nil_iff in H. rewrite H. reflexivity.
Qed.

Lemma safe_default (v : option jsstring) :
  safe v [] = JS.trim (opt_string v).
Proof.
  unfold safe, opt_string.
  destruct (JS.trim match v with Some x => x | None => [] end); reflexivity.
Qed.

Lemma safe_fallback (v : option jsstring) (fallback : jsstring) :
  safe v fallback =
  if JS.truthy (JS.trim (opt_string v)) then JS.trim (opt_string v) else fallback.
Proof.
  unfold safe, opt_string.
  destruct (JS.trim match v with Some x => x | None => [] end); reflexivity.
Qed.

Lemma slice_prefix (s : jsstring) (n : Z) :
  0 <= n -> JS.slice s 0 (Some n) = firstn (Z.to_nat n) s.
Proof.
  intros Hn. unfold JS.slice, JS.relative_index, JS.length.
  change (0 <? 0) with false. cbv iota.
  destruct (n <? 0) eqn:E; [apply Z.ltb_lt in E; lia|].
  replace (Z.min 0 (Z.of_nat (List.length s))) with 0 by lia.
  change (Z.to_nat 0) with O. rewrite skipn_O, Z.sub_0_r.
  destruct (Z.min_spec n (Z.of_nat (List.length s))) as [[H ->]|[H ->]];
    [reflexivity|].
  rewrite Nat2Z.id, firstn_all.
  symmetry; apply firstn_all2. lia.
Qed.

(* ------------------------------------------------------------------ *)
(** ** The truncation guard *)

(** C3: with a budget [maxChars >= 0], [clampText] is the identity on a
    text of at most [maxChars] code units; on a longer text it returns
    the first [maxChars] code units followed by the truncation notice,
    the notice carries the decimal rendering of the original length,
    which reads back as exactly that length, and the output length is
    [maxChars] plus the length of the notice.  The default budget is
    80000. *)
Theorem clampText_spec (text : jsstring) (maxChars : Z) :
  0 <= maxChars ->
  default_maxChars = 80000 /\
  (JS.length text <= maxChars -> clampText text maxChars = text) /\
  (maxChars < JS.length text ->
     let notice := clamp_notice (List.length text) in
     clampText text maxChars = firstn (Z.to_nat maxChars) text ++ notice
     /\ notice = clamp_notice_head
                 ++ JS.string_of_nat (List.length text) ++ clamp_notice_tail
     /\ JS.nat_of_string (JS.string_of_nat (List.length text))
        = Some (List.length text)
     /\ JS.length (clampText text maxChars) = maxChars + JS.length notice).
Proof.
  intros Hn. split; [reflexivity|]. unfold clampText. split.
  - intros Hle. apply Z.leb_le in Hle. rewrite Hle. reflexivity.
  - intros Hlt. cbv zeta.
    destruct (JS.length text <=? maxChars) eqn:E;
      [apply Z.leb_le in E; lia|].
    rewrite slice_prefix by assumption.
    split; [reflexivity|]. split; [|split].
    + unfold clamp_notice, clamp_notice_head, clamp_notice_tail.
      rewrite <- !app_assoc. reflexivity.
    + apply nat_of_string_of_nat.
    + unfold JS.length in *. rewrite length_app, length_firstn. lia.
Qed.

Lemma clampText_spec_witness :
  clampText (JS.lit "abc") 5 = JS.lit "abc"
  /\ clampText (JS.lit "abcdef") 2
     = JS.lit "ab" ++ JS.NL ++ JS.NL ++ JS.lit "(…已截斷，原長度 6 chars)".
Proof.
  split.
  - apply (clampText_spec (JS.lit "abc") 5); vm_compute; congruence.
  - rewrite (proj1 (proj2 (proj2 (clampText_spec (JS.lit "abcdef") 2 ltac:(lia)))
                       ltac:(vm_compute; reflexivity))).
    vm_compute. reflexivity.
Defined.

(* ------------------------------------------------------------------ *)
(** ** The prompt assembler *)

Lemma Field_eqb_eq (f g : Field) : Field_eqb f g = true <-> f = g.
Proof. destruct f, g; simpl; split; (reflexivity || discriminate). Qed.

Lemma buildPrompt_source_order (template : jsstring) (p : Payload) :
  buildPrompt template p = substitute_in_order source_order template p.
Proof. reflexivity. Qed.

Lemma placeholder_head (f : Field) :
  exists pat, placeholder f = open_brace :: open_brace :: pat.
Proof. destruct f; vm_compute; eexists; reflexivity. Qed.

Lemma GetSubstitution_plain (matched before after rep : jsstring) :
  dollar_free rep = true ->
  JS.GetSubstitution matched before after rep = rep.
Proof.
  induction rep as [|c rep IH]; simpl; [reflexivity|].
  intros H. apply andb_true_iff in H as [Hc Hrest].
  unfold JS.dollar in *.
  destruct (N.eqb c 36) eqn:Ec.
  - destruct rep as [|d rep']; [reflexivity|].
    apply negb_true_iff in Hc.
    repeat (apply orb_false_iff in Hc as [Hc ?]).
    rewrite Hc. 
    replace (N.eqb d 96) with false by congruence.
    replace (N.eqb d 38) with false by congruence.
    replace (N.eqb d 39) with false by congruence.
    rewrite IH by assumption. reflexivity.
  - rewrite IH by assumption. reflexivity.
Qed.

Section Scan.

Variables (pat' rep : jsstring).

Local Abbreviation pat := (open_brace :: open_brace :: pat').

Lemma scan_text (s rest before : jsstring) :
  brace_free s = true ->
  exists before',
    JS.replaceAll_scan pat rep before 0 (s ++ rest)
    = s ++ JS.replaceAll_scan pat rep before' 0 rest.
Proof.
  revert before. induction s as [|c s IH]; intros before H.
  - exists before. reflexivity.
  - simpl in H. apply andb_true_iff in H as [Hc Hs].
    destruct (IH (c :: before) Hs) as [b' Hb'].
    exists b'. 
    change ((c :: s) ++ rest) with (c :: (s ++ rest)).
    cbn [JS.replaceAll_scan].
    assert (Hno : JS.startsWith pat (c :: s ++ rest) = false).
    { cbn [JS.startsWith].
      rewrite (N.eqb_sym open_brace c).
      destruct (N.eqb c open_brace) eqn:Ec; [|reflexivity].
      destruct s as [|d s']; [discriminate|].
      apply negb_true_iff in Hc.
      change ((d :: s') ++ rest) with (d :: (s' ++ rest)). cbv iota.
      rewrite (N.eqb_sym open_brace d), Hc.
      reflexivity. }
    rewrite Hno, Hb'. reflexivity.
Qed.

Lemma scan_skip (a rest before : jsstring) :
  exists before',
    JS.replaceAll_scan pat rep before (List.length a) (a ++ rest)
    = JS.replaceAll_scan pat rep before' 0 rest.
Proof.
  revert before. induction a as [|c a IH]; intros before.
  - exists before. reflexivity.
  - destruct (IH (c :: before)) as [b' Hb']. exists b'.
    simpl. exact Hb'.
Qed.

Lemma startsWith_app (a rest : jsstring) : JS.startsWith a (a ++ rest) = true.
Proof.
  induction a as [|c a IH]; simpl; [reflexivity|].
  rewrite N.eqb_refl, IH. reflexivity.
Qed.

Lemma scan_match (rest before : jsstring) :
  dollar_free rep = true ->
  exists before',
    JS.replaceAll_scan pat rep before 0 (pat ++ rest)
    = rep ++ JS.replaceAll_scan pat rep before' 0 rest.
Proof.
  intros Hrep.
  destruct (scan_skip (open_brace :: pat') rest (open_brace :: before))
    as [b' Hb'].
  exists b'.
  change (pat ++ rest) with (open_brace :: ((open_brace :: pat') ++ rest)).
  cbn [JS.replaceAll_scan].
  change (open_brace :: (open_brace :: pat') ++ rest) with (pat ++ rest).
  rewrite startsWith_app, GetSubstitution_plain by assumption.
  cbv iota.
  change (List.length (open_brace :: pat')) with (S (List.length pat')) in *.
  rewrite <- Hb'. reflexivity.
Qed.

End Scan.

Lemma scan_other (f g : Field) (rep rest before : jsstring) :
  f <> g ->
  JS.replaceAll_scan (placeholder f) rep before 0 (placeholder g ++ rest)
  = placeholder g
    ++ JS.replaceAll_scan (placeholder f) rep
         (List.rev (placeholder g) ++ before) 0 rest.
Proof.
  intros Hfg. destruct f, g; try congruence; vm_compute; reflexivity.
Qed.

Lemma scan_render (f : Field) (rep : jsstring) (pieces : list Piece) :
  dollar_free rep = true ->
  forallb piece_ok pieces = true ->
  forall before,
    JS.replaceAll_scan (placeholder f) rep before 0 (render pieces)
    = render (subst1 f rep pieces).
Proof.
  intros Hrep. destruct (placeholder_head f) as [pat' Hpat].
  induction pieces as [|x pieces IH]; intros Hok before.
  - rewrite Hpat. reflexivity.
  - simpl in Hok. apply andb_true_iff in Hok as [Hx Hok].
    destruct x as [s|g]; simpl.
    + rewrite Hpat.
      destruct (scan_text pat' rep s (render pieces) before Hx) as [b' ->].
      rewrite <- Hpat, IH by assumption. reflexivity.
    + destruct (Field_eqb f g) eqn:E.
      * apply Field_eqb_eq in E. subst g. simpl. rewrite Hpat.
        destruct (scan_match pat' rep (render pieces) before Hrep) as [b' ->].
        rewrite <- Hpat, IH by assumption. reflexivity.
      * assert (Hfg : f <> g).
        { intros ->. destruct g; discriminate. }
        simpl. rewrite scan_other, IH by assumption. reflexivity.
Qed.

Lemma replaceAll_render (f : Field) (rep : jsstring) (pieces : list Piece) :
  dollar_free rep = true ->
  forallb piece_ok pieces = true ->
  JS.replaceAll (render pieces) (placeholder f) rep
  = render (subst1 f rep pieces).
Proof. intros H1 H2. apply scan_render; assumption. Qed.

Lemma subst1_ok (f : Field) (rep : jsstring) (pieces : list Piece) :
  brace_free rep = true ->
  forallb piece_ok pieces = true ->
  forallb piece_ok (subst1 f rep pieces) = true.
Proof.
  intros Hrep. induction pieces as [|x pieces IH]; simpl; [reflexivity|].
  intros H. apply andb_true_iff in H as [Hx Hok].
  rewrite IH by assumption.
  destruct x as [s|g]; simpl in *; [rewrite Hx; reflexivity|].
  destruct (Field_eqb f g); simpl; [rewrite Hrep|]; reflexivity.
Qed.

Lemma fill_subst1 (p : Payload) (f : Field) (pieces : list Piece) :
  fill p (subst1 f (field_text p f) pieces) = fill p pieces.
Proof.
  induction pieces as [|x pieces IH]; simpl; [reflexivity|].
  destruct x as [s|g]; simpl; [rewrite IH; reflexivity|].
  destruct (Field_eqb f g) eqn:E; simpl; rewrite IH; [|reflexivity].
  apply Field_eqb_eq in E. subst g. reflexivity.
Qed.

Lemma substitute_render (p : Payload) (order : list Field) :
  (forall f, dollar_free (field_text p f) = true) ->
  (forall f, brace_free (field_text p f) = true) ->
  forall pieces,
    forallb piece_ok pieces = true ->
    substitute_in_order order (render pieces) p
    = render (subst_pieces p order pieces).
Proof.
  intros Hd Hb. unfold substitute_in_order, subst_pieces.
  induction order as [|f order IH]; intros pieces Hok; simpl; [reflexivity|].
  rewrite replaceAll_render by auto.
  apply IH. apply subst1_ok; auto.
Qed.

Lemma slot_subst1 (f g : Field) (rep : jsstring) (pieces : list Piece) :
  In (Slot g) (subst1 f rep pieces) -> In (Slot g) pieces /\ f <> g.
Proof.
  unfold subst1. rewrite in_map_iff. intros [x [Hx Hin]].
  destruct x as [s|h]; [discriminate|].
  destruct (Field_eqb f h) eqn:E; [discriminate|].
  injection Hx as ->. split; [assumption|].
  intros ->. destruct g; discriminate.
Qed.

Lemma slot_subst_pieces (p : Payload) (g : Field) (order : list Field) :
  forall pieces,
    In (Slot g) (subst_pieces p order pieces) ->
    In (Slot g) pieces /\ ~ In g order.
Proof.
  unfold subst_pieces.
  induction order as [|f order IH]; intros pieces H; simpl in *; [tauto|].
  apply IH in H as [H Hno]. apply slot_subst1 in H as [H Hfg].
  split; [assumption|]. intros [->|Hin]; tauto.
Qed.

Lemma fill_subst_pieces (p : Payload) (order : list Field) :
  forall pieces, fill p (subst_pieces p order pieces) = fill p pieces.
Proof.
  unfold subst_pieces.
  induction order as [|f order IH]; intros pieces; simpl; [reflexivity|].
  rewrite IH. apply fill_subst1.
Qed.

Lemma render_no_slot (p : Payload) (pieces : list Piece) :
  (forall g, ~ In (Slot g) pieces) -> render pieces = fill p pieces.
Proof.
  induction pieces as [|x pieces IH]; intros H; simpl; [reflexivity|].
  destruct x as [s|g].
  - rewrite IH; [reflexivity|]. intros g Hg. apply (H g). right; assumption.
  - exfalso. apply (H g). left; reflexivity.
Qed.

Lemma source_order_complete (f : Field) : In f source_order.
Proof. destruct f; simpl; tauto. Qed.

Lemma covers_all_fields_In (order : list Field) :
  covers_all_fields order = true -> forall f, In f order.
Proof.
  unfold covers_all_fields. rewrite forallb_forall. intros H f.
  specialize (H f (source_order_complete f)).
  apply existsb_exists in H as [g [Hg E]].
  apply Field_eqb_eq in E. subst g. assumption.
Qed.

Lemma plain_payload_fields (p : Payload) :
  plain_payload p = true ->
  forall f, dollar_free (field_text p f) = true
            /\ brace_free (field_text p f) = true.
Proof.
  unfold plain_payload. rewrite forallb_forall. intros H f.
  apply andb_true_iff. apply H. apply source_order_complete.
Qed.

Lemma substitute_fill (order : list Field) (pieces : list Piece) (p : Payload) :
  forallb piece_ok pieces = true ->
  plain_payload p = true ->
  (forall f, In f order) ->
  substitute_in_order order (render pieces) p = fill p pieces.
Proof.
  intros Hok Hp Hall.
  rewrite substitute_render; try assumption;
    try (intros f; apply (plain_payload_fields p Hp f)).
  rewrite <- (fill_subst_pieces p order pieces).
  apply render_no_slot. intros g Hg.
  apply slot_subst_pieces in Hg as [_ Hg]. apply Hg, Hall.
Qed.

(** C2 (as amended): on a template made of placeholders and of literal
    text with no [{{] and no final [{], and with field texts that
    likewise have no [{{], no final [{] and none of the sequences [$$],
    [$&], [$`], [$'], [buildPrompt] returns the template with every
    occurrence of each placeholder replaced by the text of its field,
    and so does any sequence of [replaceAll] passes that names every
    field, whatever its order. *)
Theorem buildPrompt_fill (pieces : list Piece) (p : Payload)
    (order : list Field) :
  forallb piece_ok pieces = true ->
  plain_payload p = true ->
  covers_all_fields order = true ->
  buildPrompt (render pieces) p = fill p pieces
  /\ substitute_in_order order (render pieces) p
     = buildPrompt (render pieces) p.
Proof.
  intros Hok Hp Hall.
  rewrite buildPrompt_source_order.
  rewrite !substitute_fill;
    auto using source_order_complete, covers_all_fields_In.
Qed.

Lemma buildPrompt_fill_witness :
  buildPrompt (render sample_pieces) (payload (JS.lit "hello"))
  = fill (payload (JS.lit "hello")) sample_pieces
  /\ substitute_in_order (List.rev source_order) (render sample_pieces)
       (payload (JS.lit "hello"))
     = buildPrompt (render sample_pieces) (payload (JS.lit "hello")).
Proof.
  apply (buildPrompt_fill sample_pieces (payload (JS.lit "hello"))
           (List.rev source_order));
    vm_compute; reflexivity.
Defined.

(** C2 as stated fails: when the transcript text is the placeholder of
    the training goal, the pass for the training goal rewrites it, so the
    occurrence of the transcript placeholder does not end up replaced by
    the transcript text, and running the passes in the opposite order
    gives another result. *)
Lemma buildPrompt_order_matters :
  field_text nested_payload ContextDocuments = JS.lit "{{TRAINING_GOAL}}"
  /\ buildPrompt nested_template nested_payload
     = field_text nested_payload TrainingGoal
  /\ buildPrompt nested_template nested_payload
     <> fill nested_payload [Slot ContextDocuments]
  /\ substitute_in_order (List.rev source_order) nested_template nested_payload
     = JS.lit "{{TRAINING_GOAL}}"
  /\ buildPrompt nested_template nested_payload
     <> substitute_in_order (List.rev source_order) nested_template
          nested_payload.
Proof.
  repeat split; try (vm_compute; reflexivity); vm_compute; discriminate.
Qed.

(** A replacement text is not taken literally either: [$&] in the
    transcript text comes out as the placeholder itself. *)
Lemma buildPrompt_dollar_pattern :
  buildPrompt (JS.lit "<{{CONTEXT_DOCUMENTS}}>") (payload (JS.lit "$&"))
  = JS.lit "<{{CONTEXT_DOCUMENTS}}>".
Proof. vm_compute. reflexivity. Qed.

(** C1 as stated fails: the coach role and the customer name are two
    fields with one and the same marker. *)
Lemma markers_not_pairwise_distinct :
  In CoachRole inferred_fields /\ In CustomerName inferred_fields
  /\ CoachRole <> CustomerName
  /\ field_text (payload []) CoachRole = field_text (payload []) CustomerName
  /\ ~ NoDup (map marker inferred_fields).
Proof.
  repeat split; try (simpl; tauto); try discriminate.
  intros H. vm_compute in H.
  repeat match goal with
         | H : NoDup (_ :: _) |- _ => inversion H; clear H; subst
         end.
  match goal with
  | H : ~ In ?x [?x] |- _ => apply H; left; reflexivity
  end.
Qed.

(** C1 (as amended): whatever the transcript bundle, each of the six
    fields the end user cannot supply holds a fixed marker in the payload
    and [buildPrompt] puts that marker in the place of the field's
    placeholder; two of these fields have the same marker exactly when
    they are the same field or are the coach role and the customer name,
    which share the marker [（未提供）]. *)
Theorem payload_markers (contextBundle : jsstring) :
  Forall (fun f =>
            field_text (payload contextBundle) f = marker f
            /\ buildPrompt (placeholder f) (payload contextBundle) = marker f)
         inferred_fields
  /\ Forall (fun f =>
       Forall (fun g =>
                 marker f = marker g <->
                 (f = g \/ (f = CoachRole /\ g = CustomerName)
                  \/ (f = CustomerName /\ g = CoachRole)))
              inferred_fields)
       inferred_fields
  /\ marker CoachRole = JS.lit "（未提供）".
Proof.
  split; [|split].
  - unfold inferred_fields.
    repeat (apply Forall_cons; [split; vm_compute; reflexivity|]).
    apply Forall_nil.
  - unfold inferred_fields.
    repeat (apply Forall_cons || apply Forall_nil);
      (split;
       [ intros H; vm_compute in H;
         first [ discriminate H | tauto ]
       | intros [H|[[H1 H2]|[H1 H2]]];
         first [ discriminate | reflexivity ] ]).
  - vm_compute. reflexivity.
Qed.

(* ------------------------------------------------------------------ *)
(** ** The two attachment loops *)

Section Loops.

Context {json worksheet : Type} (host : Host json worksheet).

(** Attachments that each yield something extend the accumulators in
    submission order, and the loop goes on with the remaining ones. *)
Lemma contextLoop_app (pre rest : list File) (items : list Extraction) :
  Forall2 (fun f x => contextFileStep host f = Next x) pre items ->
  forall chunks images,
    contextLoop host (pre ++ rest) chunks images
    = contextLoop host rest (chunks ++ chunks_of items)
                            (images ++ images_of items).
Proof.
  induction 1 as [|f x pre items Hf _ IH]; intros chunks images; simpl.
  - rewrite !app_nil_r. reflexivity.
  - rewrite Hf. simpl. destruct x as [c|i]; rewrite IH; simpl;
      rewrite <- ?app_assoc; reflexivity.
Qed.

Lemma contextLoop_Next (files : list File) :
  forall chunks images chunks' images',
    contextLoop host files chunks images = Next (chunks', images') ->
    exists items,
      Forall2 (fun f x => contextFileStep host f = Next x) files items
      /\ chunks' = chunks ++ chunks_of items
      /\ images' = images ++ images_of items.
Proof.
  induction files as [|f files IH]; intros chunks images chunks' images' H;
    simpl in H.
  - injection H as <- <-. exists []. rewrite !app_nil_r. auto.
  - destruct (contextFileStep host f) as [x|r|e] eqn:Hf; try discriminate.
    simpl in H. destruct x as [c|i]; apply IH in H as [items [HF [-> ->]]].
    + exists (TextChunk c :: items). simpl. rewrite <- app_assoc. auto.
    + exists (Image i :: items). simpl. rewrite <- app_assoc. auto.
Qed.

Lemma rubricLoop_app (pre rest : list File) (new : list jsstring) :
  Forall2 (fun f c => rubricFileStep host f = Next c) pre new ->
  forall chunks,
    rubricLoop host (pre ++ rest) chunks = rubricLoop host rest (chunks ++ new).
Proof.
  induction 1 as [|f c pre new Hf _ IH]; intros chunks; simpl.
  - rewrite app_nil_r. reflexivity.
  - rewrite Hf. simpl. rewrite IH, <- app_assoc. reflexivity.
Qed.

Lemma rubricLoop_Next (files : list File) :
  forall chunks chunks',
    rubricLoop host files chunks = Next chunks' ->
    exists new,
      Forall2 (fun f c => rubricFileStep host f = Next c) files new
      /\ chunks' = chunks ++ new.
Proof.
  induction files as [|f files IH]; intros chunks chunks' H; simpl in H.
  - injection H as <-. exists []. rewrite app_nil_r. auto.
  - destruct (rubricFileStep host f) as [c|r|e] eqn:Hf; try discriminate.
    simpl in H. apply IH in H as [new [HF ->]].
    exists (c :: new). rewrite <- app_assoc. auto.
Qed.

End Loops.

(* ------------------------------------------------------------------ *)
(** ** The bundle merger *)

(** C4: for every text typed into a field and every list of attachment
    chunks: without chunks the merged text of the field is the trimmed
    text (empty for an empty text, [abc] for [abc]); with chunks it is
    the trimmed text, then the banner line of the field between line
    breaks, then the chunks joined by blank lines in the order of the
    list, which is the order in which the attachments were submitted;
    the banner is there when the typed text is empty too. *)
Theorem merge_spec (literal : jsstring) (chunks : list jsstring) :
  chunks <> [] ->
  (* the typed text of the two fields is trimmed *)
  baseContext {| text := None; form_contextDocuments := Some literal;
                 rubricInput := None |} = JS.trim literal
  /\ baseContext {| text := Some literal; form_contextDocuments := None;
                    rubricInput := None |} = JS.trim literal
  /\ baseRubric {| text := None; form_contextDocuments := None;
                   rubricInput := Some literal |} = JS.trim literal
  (* no attachment chunks *)
  /\ mergedContext (JS.trim literal) [] = JS.trim literal
  /\ mergedRubric (JS.trim literal) [] = JS.trim literal
  /\ mergedContext (JS.trim (JS.lit "")) [] = JS.lit ""
  /\ mergedContext (JS.trim (JS.lit "abc")) [] = JS.lit "abc"
  (* some attachment chunks *)
  /\ mergedContext (JS.trim literal) chunks
     = JS.trim literal
       ++ (JS.NL ++ JS.NL ++ context_banner ++ JS.NL)
       ++ JS.join (JS.NL ++ JS.NL) chunks
  /\ mergedRubric (JS.trim literal) chunks
     = JS.trim literal
       ++ (JS.NL ++ JS.NL ++ rubric_banner ++ JS.NL)
       ++ JS.join (JS.NL ++ JS.NL) chunks
  /\ mergedContext (JS.trim (JS.lit "")) chunks
     = (JS.NL ++ JS.NL ++ context_banner ++ JS.NL)
       ++ JS.join (JS.NL ++ JS.NL) chunks
  (* the chunks are in submission order *)
  /\ (forall (json worksheet : Type) (host : Host json worksheet)
             (files : list File) (rubricTextChunks : list jsstring),
        rubricLoop host files [] = Next rubricTextChunks ->
        Forall2 (fun f c => rubricFileStep host f = Next c)
                files rubricTextChunks)
  /\ (forall (json worksheet : Type) (host : Host json worksheet)
             (files : list File) (contextTextChunks : list jsstring)
             (imageInputs : list ImageInput),
        contextLoop host files [] [] = Next (contextTextChunks, imageInputs) ->
        exists items,
          Forall2 (fun f x => contextFileStep host f = Next x) files items
          /\ contextTextChunks = chunks_of items
          /\ imageInputs = images_of items).
Proof.
  intros Hne.
  assert (Hlen : negb (Nat.eqb (List.length chunks) 0) = true).
  { destruct chunks; [congruence | reflexivity]. }
  unfold baseContext, baseRubric, mergedContext, mergedRubric.
  rewrite Hlen. cbn [text form_contextDocuments rubricInput].
  rewrite !safe_default. cbn [opt_string].
  repeat apply conj.
  - unfold JS.or_else. destruct (JS.trim literal); reflexivity.
  - reflexivity.
  - reflexivity.
  - simpl. apply app_nil_r.
  - simpl. apply app_nil_r.
  - vm_compute. reflexivity.
  - vm_compute. reflexivity.
  - reflexivity.
  - reflexivity.
  - reflexivity.
  - intros json worksheet host files cs H.
    apply rubricLoop_Next in H as [new [HF ->]]. exact HF.
  - intros json worksheet host files cs imgs H.
    apply contextLoop_Next in H as [items [HF [-> ->]]].
    exists items. auto.
Qed.

Lemma merge_spec_witness :
  mergedContext (JS.trim (JS.lit "  abc ")) [JS.lit "c1"; JS.lit "c2"]
  = JS.lit "abc" ++ JS.NL ++ JS.NL ++ JS.lit "【逐字稿欄附件彙整】" ++ JS.NL
    ++ JS.lit "c1" ++ JS.NL ++ JS.NL ++ JS.lit "c2".
Proof.
  rewrite (proj1 (proj2 (proj2 (proj2 (proj2 (proj2 (proj2 (proj2
             (merge_spec (JS.lit "  abc ") [JS.lit "c1"; JS.lit "c2"]
                ltac:(discriminate)))))))))).
  vm_compute. reflexivity.
Defined.

(* ------------------------------------------------------------------ *)
(** ** Extensions and dispatch *)

Lemma lastIndexOf_from_absent (s : jsstring) (i last : Z) :
  ~ In dot s -> JS.lastIndexOf_from [dot] s i last = last.
Proof.
  revert i last. induction s as [|c s IH]; intros i last H.
  - reflexivity.
  - assert (Hc : N.eqb dot c = false).
    { apply N.eqb_neq. intros Hd. apply H. left. symmetry. exact Hd. }
    cbn [JS.lastIndexOf_from JS.startsWith]. rewrite Hc. cbn [andb].
    apply IH. intros Hin. apply H. right; assumption.
Qed.

Lemma lastIndexOf_from_last (stem ext : jsstring) (i last : Z) :
  ~ In dot ext ->
  JS.lastIndexOf_from [dot] (stem ++ dot :: ext) i last
  = i + Z.of_nat (List.length stem).
Proof.
  intros H. revert i last. induction stem as [|c stem IH]; intros i last.
  - change ([] ++ dot :: ext) with (dot :: ext).
    cbn [JS.lastIndexOf_from JS.startsWith].
    rewrite N.eqb_refl. cbn [andb].
    rewrite lastIndexOf_from_absent by assumption. simpl. lia.
  - change ((c :: stem) ++ dot :: ext) with (c :: (stem ++ dot :: ext)).
    cbn [JS.lastIndexOf_from]. rewrite IH.
    change (List.length (c :: stem)) with (S (List.length stem)). lia.
Qed.

Lemma slice_suffix (s : jsstring) (n : nat) :
  (n <= List.length s)%nat ->
  JS.slice s (Z.of_nat n) None = skipn n s.
Proof.
  intros Hn. unfold JS.slice, JS.relative_index, JS.length.
  destruct (Z.of_nat n <? 0) eqn:E; [apply Z.ltb_lt in E; lia|].
  rewrite Z.min_l by lia. rewrite Nat2Z.id.
  rewrite <- Nat2Z.inj_sub by assumption. rewrite Nat2Z.id.
  apply firstn_all2. rewrite length_skipn. lia.
Qed.

Section Dispatch.

Context {json worksheet : Type} (host : Host json worksheet).

Lemma getExt_after_last_dot (stem ext : jsstring) :
  ~ In dot ext ->
  getExt host (stem ++ dot :: ext)
  = JS.toLowerCase (unicode_toLowerCase host) ext.
Proof.
  intros H. unfold getExt, JS.lastIndexOf.
  change (JS.lit ".") with [dot].
  rewrite lastIndexOf_from_last by assumption.
  destruct (0 <=? 0 + Z.of_nat (List.length stem)) eqn:E;
    [|apply Z.leb_gt in E; lia].
  replace (0 + Z.of_nat (List.length stem) + 1)
    with (Z.of_nat (S (List.length stem))) by lia.
  rewrite slice_suffix by (rewrite length_app; simpl; lia).
  replace (skipn (S (List.length stem)) (stem ++ dot :: ext)) with ext;
    [reflexivity|].
  clear. induction stem as [|c stem IH]; [reflexivity | exact IH].
Qed.

Lemma getExt_no_dot (filename : jsstring) :
  ~ In dot filename -> getExt host filename = [].
Proof.
  intros H. unfold getExt, JS.lastIndexOf.
  change (JS.lit ".") with [dot].
  rewrite lastIndexOf_from_absent by assumption. reflexivity.
Qed.

End Dispatch.

Section Extractors.

Context {json worksheet : Type} (host : Host json worksheet).

(** C7: for an attachment whose extension is [json], in either field,
    the UTF-8 decoded content goes through [JSON.parse] and the
    pretty-printer when it parses, and is kept as it is when it does not;
    in both cases the attachment yields a text chunk (the label line, then
    the clamped content) and neither a response nor an exception. *)
Theorem json_attachment (f : File) :
  getExt host (originalname f) = JS.lit "json" ->
  let content := JS.Buffer_toString_utf8 (buffer f) in
  (forall obj,
     JSON_parse host content = Some obj ->
     contextFileStep host f
     = Next (TextChunk (JS.lit "[逐字稿附件文字：" ++ originalname f
                          ++ JS.lit "]" ++ JS.NL
                          ++ clampText (JSON_stringify host obj) default_maxChars))
     /\ rubricFileStep host f
        = Next (JS.lit "[評分表附件文字：" ++ originalname f
                  ++ JS.lit "]" ++ JS.NL
                  ++ clampText (JSON_stringify host obj) default_maxChars))
  /\ (JSON_parse host content = None ->
      contextFileStep host f
      = Next (TextChunk (JS.lit "[逐字稿附件文字：" ++ originalname f
                           ++ JS.lit "]" ++ JS.NL
                           ++ clampText content default_maxChars))
      /\ rubricFileStep host f
         = Next (JS.lit "[評分表附件文字：" ++ originalname f
                   ++ JS.lit "]" ++ JS.NL
                   ++ clampText content default_maxChars)
      /\ (JS.length content <= default_maxChars ->
          clampText content default_maxChars = content)).
Proof.
  intros Hext content. split.
  - intros obj Hobj. dispatch_on Hext. unfold json_content.
    fold content. rewrite Hobj. split; reflexivity.
  - intros Hnone. dispatch_on Hext. unfold json_content.
    fold content. rewrite Hnone. repeat split.
    unfold clampText. intros Hle. apply Z.leb_le in Hle. rewrite Hle.
    reflexivity.
Qed.

Lemma excel_lines_spec (wb : Workbook worksheet)
    (csv_of : jsstring -> jsstring) (names : list jsstring) :
  (forall n, In n names ->
             XLSX_sheet_to_csv host (Sheets wb n) = Resolved (csv_of n)) ->
  forall lines,
    excel_lines host wb names lines
    = Next (lines ++ map (sheet_block csv_of) names).
Proof.
  induction names as [|n names IH]; intros H lines; simpl.
  - rewrite app_nil_r. reflexivity.
  - rewrite (H n) by (left; reflexivity). simpl.
    rewrite IH by (intros m Hm; apply H; right; assumption).
    rewrite <- app_assoc. reflexivity.
Qed.

(** C9: for an attachment whose extension is [xlsx] or [xls], in either
    field, when the workbook is read and each of its sheets renders to
    CSV, the text produced is the blocks of the sheets, in the order of
    the workbook's list of sheet names, joined by blank lines; the block
    of a sheet is the banner line naming it followed by its CSV
    rendering.  A workbook with the sheets [Q1] and [Q2] gives the block
    of [Q1], a blank line, and the block of [Q2].  The chunk of the
    attachment is its label line followed by this text, clamped. *)
Theorem excel_attachment (f : File) (wb : Workbook worksheet)
    (csv_of : jsstring -> jsstring) :
  getExt host (originalname f) = JS.lit "xlsx"
  \/ getExt host (originalname f) = JS.lit "xls" ->
  XLSX_read host (buffer f) = Resolved wb ->
  (forall n, In n (SheetNames wb) ->
             XLSX_sheet_to_csv host (Sheets wb n) = Resolved (csv_of n)) ->
  let csvText :=
    JS.join (JS.NL ++ JS.NL) (map (sheet_block csv_of) (SheetNames wb)) in
  excelBufferToText host (buffer f) = Next csvText
  /\ (forall n, sheet_block csv_of n
                = JS.lit "--- Sheet: " ++ n ++ JS.lit " ---" ++ JS.NL
                    ++ csv_of n)
  /\ (SheetNames wb = [JS.lit "Q1"; JS.lit "Q2"] ->
      csvText = sheet_block csv_of (JS.lit "Q1") ++ (JS.NL ++ JS.NL)
                  ++ sheet_block csv_of (JS.lit "Q2"))
  /\ contextFileStep host f
     = Next (TextChunk (JS.lit "[逐字稿附件Excel：" ++ originalname f
                          ++ JS.lit "]" ++ JS.NL
                          ++ clampText csvText default_maxChars))
  /\ rubricFileStep host f
     = Next (JS.lit "[評分表附件Excel：" ++ originalname f
               ++ JS.lit "]" ++ JS.NL
               ++ clampText csvText default_maxChars).
Proof.
  intros Hext Hwb Hcsv csvText.
  assert (Hx : excelBufferToText host (buffer f) = Next csvText).
  { unfold excelBufferToText. rewrite Hwb. simpl.
    rewrite (excel_lines_spec wb csv_of) by assumption. reflexivity. }
  split; [exact Hx|]. split; [reflexivity|]. split.
  - intros Hnames. unfold csvText. rewrite Hnames. reflexivity.
  - destruct Hext as [Hext|Hext]; dispatch_on Hext; rewrite Hx;
      split; reflexivity.
Qed.

End Extractors.

Lemma json_attachment_witness :
  contextFileStep quiet_host (file "notes.JSON" "{oops")
  = Next (TextChunk (JS.lit "[逐字稿附件文字：notes.JSON]" ++ JS.NL
                       ++ JS.lit "{oops")).
Proof.
  rewrite (proj1 (proj2 (json_attachment quiet_host (file "notes.JSON" "{oops")
                           ltac:(vm_compute; reflexivity))
                   ltac:(reflexivity))).
  vm_compute. reflexivity.
Defined.

Lemma excel_attachment_witness :
  excelBufferToText sheets_host (buffer (file "book.xlsx" "PK"))
  = Next (JS.lit "--- Sheet: Q1 ---" ++ JS.NL ++ JS.lit "a,b"
            ++ JS.NL ++ JS.NL
            ++ JS.lit "--- Sheet: Q2 ---" ++ JS.NL ++ JS.lit "c,d").
Proof.
  rewrite (proj1 (excel_attachment sheets_host (file "book.xlsx" "PK")
                    two_sheets
                    (fun n => match Sheets two_sheets n with
                              | Some csv => csv
                              | None => []
                              end)
                    ltac:(left; vm_compute; reflexivity)
                    ltac:(reflexivity)
                    ltac:(intros n [<-|[<-|[]]]; vm_compute; reflexivity))).
  vm_compute. reflexivity.
Defined.

(* ------------------------------------------------------------------ *)
(** ** Responses of the handler *)

Section Responses.

Context {json worksheet : Type} (host : Host json worksheet).

Lemma await_no_return {A : Type} (o : Outcome A) (r : Response) :
  await o <> Return r.
Proof. destruct o; discriminate. Qed.

Lemma excel_lines_no_return (wb : Workbook worksheet) (names : list jsstring) :
  forall lines r, excel_lines host wb names lines <> Return r.
Proof.
  induction names as [|n names IH]; intros lines r; simpl; [discriminate|].
  destruct (XLSX_sheet_to_csv host (Sheets wb n)); simpl;
    [apply IH | discriminate].
Qed.

Lemma excelBufferToText_no_return (buf : list byte) (r : Response) :
  excelBufferToText host buf <> Return r.
Proof.
  unfold excelBufferToText. destruct (XLSX_read host buf) as [wb|e]; simpl;
    [|discriminate].
  destruct (excel_lines host wb (SheetNames wb) []) eqn:E; simpl;
    try discriminate.
  exfalso. exact (excel_lines_no_return _ _ _ _ E).
Qed.

Lemma pptxBufferToText_no_return (buf : list byte) (r : Response) :
  pptxBufferToText host buf <> Return r.
Proof.
  unfold pptxBufferToText.
  destruct (PptxParser_extractText host buf); simpl; discriminate.
Qed.

(** The only response an iteration over a transcript attachment returns
    is the rejection of an unsupported format. *)
Lemma contextFileStep_Return (f : File) (r : Response) :
  contextFileStep host f = Return r ->
  r = bad_request (JS.lit "逐字稿欄不支援的檔案格式：" ++ originalname f).
Proof.
  unfold contextFileStep.
  repeat match goal with
         | |- (if ?b then _ else _) = _ -> _ => destruct b
         end;
    try discriminate;
    try (intros H; injection H as <-; reflexivity).
  - destruct (excelBufferToText host (buffer f)) eqn:E; simpl;
      try discriminate.
    exfalso. exact (excelBufferToText_no_return _ _ E).
  - destruct (pdfParse host (buffer f)); simpl; discriminate.
  - destruct (mammoth_extractRawText host (buffer f)); simpl; discriminate.
  - destruct (pptxBufferToText host (buffer f)) eqn:E; simpl;
      try discriminate.
    exfalso. exact (pptxBufferToText_no_return _ _ E).
Qed.

(** An iteration over a rubric attachment returns a response only to
    reject an image or an unsupported format. *)
Lemma rubricFileStep_Return (f : File) (r : Response) :
  rubricFileStep host f = Return r ->
  r = bad_request (JS.lit "評分表欄不接受圖片檔：" ++ originalname f)
  \/ r = bad_request (JS.lit "評分表欄不支援的檔案格式：" ++ originalname f).
Proof.
  unfold rubricFileStep.
  repeat match goal with
         | |- (if ?b then _ else _) = _ -> _ => destruct b
         end;
    try discriminate;
    try (intros H; injection H as <-; auto).
  - destruct (excelBufferToText host (buffer f)) eqn:E; simpl;
      try discriminate.
    exfalso. exact (excelBufferToText_no_return _ _ E).
  - destruct (pdfParse host (buffer f)); simpl; discriminate.
  - destruct (mammoth_extractRawText host (buffer f)); simpl; discriminate.
  - destruct (pptxBufferToText host (buffer f)) eqn:E; simpl;
      try discriminate.
    exfalso. exact (pptxBufferToText_no_return _ _ E).
Qed.

Lemma contextLoop_Return (files : list File) :
  forall chunks images r,
    contextLoop host files chunks images = Return r ->
    exists message, r = bad_request message.
Proof.
  induction files as [|f files IH]; intros chunks images r; simpl;
    [discriminate|].
  destruct (contextFileStep host f) as [x|r'|e] eqn:Hf; simpl;
    try discriminate.
  - destruct x; apply IH.
  - intros H; injection H as <-. apply contextFileStep_Return in Hf.
    eauto.
Qed.

Lemma rubricLoop_Return (files : list File) :
  forall chunks r,
    rubricLoop host files chunks = Return r ->
    exists message, r = bad_request message.
Proof.
  induction files as [|f files IH]; intros chunks r; simpl; [discriminate|].
  destruct (rubricFileStep host f) as [x|r'|e] eqn:Hf; simpl;
    try discriminate.
  - apply IH.
  - intros H; injection H as <-.
    apply rubricFileStep_Return in Hf as [->| ->]; eauto.
Qed.

Lemma prepare_Return (req : Request) (r : Response) :
  prepare host req = Return r -> exists message, r = bad_request message.
Proof.
  unfold prepare.
  destruct (contextLoop host (contextFiles req) [] []) as [parsed|r'|e] eqn:Hc;
    cbn [bind]; try discriminate.
  - destruct (rubricLoop host (rubricFiles req) []) as [cs|r'|e] eqn:Hr;
      cbn [bind]; try discriminate.
    + match goal with |- (if ?b then _ else _) = _ -> _ => destruct b end.
      * intros H; injection H as <-. eauto.
      * unfold loadTemplate. destruct (template_txt host); simpl; discriminate.
    + intros H; injection H as <-. exact (rubricLoop_Return _ _ _ Hr).
  - intros H; injection H as <-. exact (contextLoop_Return _ _ _ _ Hc).
Qed.

(** A request whose preparation does not reach the completion client is
    answered with a failure, status 400 or 500, and the client is not
    called. *)
Lemma generate_not_dispatched (req : Request) :
  (forall c, prepare host req <> Next c) ->
  snd (generate host req) = []
  /\ ok (body (fst (generate host req))) = false
  /\ (status (fst (generate host req)) = 400%N
      \/ status (fst (generate host req)) = 500%N).
Proof.
  intros H. unfold generate.
  destruct (prepare host req) as [c|r|e] eqn:E.
  - exfalso. exact (H c eq_refl).
  - apply prepare_Return in E as [m ->]. simpl. auto.
  - simpl. auto.
Qed.

Lemma generate_Return (req : Request) (r : Response) :
  prepare host req = Return r -> generate host req = (r, []).
Proof. intros H. unfold generate. rewrite H. reflexivity. Qed.

(** The first transcript attachment that returns a response decides the
    response of the request. *)
Lemma prepare_context_Return (req : Request) (pre post : list File) (f : File)
    (parsed : list jsstring * list ImageInput) (r : Response) :
  contextFiles req = pre ++ f :: post ->
  contextLoop host pre [] [] = Next parsed ->
  contextFileStep host f = Return r ->
  prepare host req = Return r.
Proof.
  intros Hfiles Hpre Hf. unfold prepare. rewrite Hfiles.
  destruct parsed as [cs imgs].
  apply contextLoop_Next in Hpre as [items [HF [-> ->]]].
  rewrite (contextLoop_app host pre (f :: post) items HF).
  cbn [contextLoop rubricLoop bind]. rewrite Hf. reflexivity.
Qed.

(** So does the first rubric attachment that returns a response, once
    the transcript attachments are through. *)
Lemma prepare_rubric_Return (req : Request) (pre post : list File) (f : File)
    (parsed : list jsstring * list ImageInput) (chunks : list jsstring)
    (r : Response) :
  contextLoop host (contextFiles req) [] [] = Next parsed ->
  rubricFiles req = pre ++ f :: post ->
  rubricLoop host pre [] = Next chunks ->
  rubricFileStep host f = Return r ->
  prepare host req = Return r.
Proof.
  intros Hctx Hfiles Hpre Hf. unfold prepare. rewrite Hctx, Hfiles. cbn [bind].
  apply rubricLoop_Next in Hpre as [new [HF ->]].
  rewrite (rubricLoop_app host pre (f :: post) new HF).
  cbn [contextLoop rubricLoop bind]. rewrite Hf. reflexivity.
Qed.

Lemma rubricLoop_stops (pre post : list File) (f : File) (r : Response) :
  rubricFileStep host f = Return r ->
  forall chunks chunks', rubricLoop host (pre ++ f :: post) chunks <> Next chunks'.
Proof.
  intros Hf. induction pre as [|g pre IH]; intros chunks chunks'; simpl.
  - rewrite Hf. discriminate.
  - destruct (rubricFileStep host g); simpl; [apply IH | discriminate ..].
Qed.

Lemma contextLoop_stops (pre post : list File) (f : File) (r : Response) :
  contextFileStep host f = Return r ->
  forall chunks images parsed,
    contextLoop host (pre ++ f :: post) chunks images <> Next parsed.
Proof.
  intros Hf. induction pre as [|g pre IH]; intros chunks images parsed; simpl.
  - rewrite Hf. discriminate.
  - destruct (contextFileStep host g) as [x| |]; simpl;
      [destruct x; apply IH | discriminate ..].
Qed.

End Responses.

(* ------------------------------------------------------------------ *)
(** ** Base64 *)

Lemma In_all_bytes (n : N) : (n < 256)%N -> In n all_bytes.
Proof.
  intros H. unfold all_bytes. apply in_map_iff.
  exists (N.to_nat n). split; [apply N2Nat.id|].
  apply in_seq. lia.
Qed.

Lemma for_all_bytes2_sound (P : N -> N -> bool) :
  for_all_bytes2 P = true ->
  forall a b, (a < 256)%N -> (b < 256)%N -> P a b = true.
Proof.
  unfold for_all_bytes2. intros H a b Ha Hb.
  rewrite forallb_forall in H. specialize (H a (In_all_bytes a Ha)).
  rewrite forallb_forall in H. exact (H b (In_all_bytes b Hb)).
Qed.

Lemma sextet_ok_spec (v : N) :
  sextet_ok v = true ->
  base64_value (JS.base64_digit v) = Some v
  /\ N.eqb (JS.base64_digit v) JS.base64_pad = false.
Proof.
  unfold sextet_ok. intros H. apply andb_true_iff in H as [H1 H2].
  apply negb_true_iff in H2. split; [|assumption].
  destruct (base64_value (JS.base64_digit v)) as [v'|]; [|discriminate].
  apply N.eqb_eq in H1. congruence.
Qed.

Lemma sextet_ok_below_64 (v : N) : (v < 64)%N -> sextet_ok v = true.
Proof.
  intros Hv.
  assert (H : forallb sextet_ok (map N.of_nat (seq 0 64)) = true)
    by (vm_compute; reflexivity).
  rewrite forallb_forall in H. apply H.
  apply in_map_iff. exists (N.to_nat v). split; [apply N2Nat.id|].
  apply in_seq. lia.
Qed.

Lemma sextets_ok12 (a b : N) :
  (a < 256)%N -> (b < 256)%N ->
  sextet_ok (N.shiftr a 2) = true
  /\ sextet_ok (N.lor (N.shiftl (N.land a 3) 4) (N.shiftr b 4)) = true
  /\ sextet_ok (N.lor (N.shiftl (N.land a 15) 2) (N.shiftr b 6)) = true
  /\ sextet_ok (N.land b 63) = true
  /\ sextet_ok (N.shiftl (N.land a 3) 4) = true
  /\ sextet_ok (N.shiftl (N.land b 15) 2) = true.
Proof.
  intros Ha Hb.
  assert (H := for_all_bytes2_sound
    (fun a b =>
       N.ltb (N.shiftr a 2) 64
       && N.ltb (N.lor (N.shiftl (N.land a 3) 4) (N.shiftr b 4)) 64
       && N.ltb (N.lor (N.shiftl (N.land a 15) 2) (N.shiftr b 6)) 64
       && N.ltb (N.land b 63) 64
       && N.ltb (N.shiftl (N.land a 3) 4) 64
       && N.ltb (N.shiftl (N.land b 15) 2) 64)
    ltac:(vm_compute; reflexivity) a b Ha Hb).
  cbv beta in H. do 5 (apply andb_true_iff in H as [H ?]).
  repeat match goal with
         | K : N.ltb _ _ = true |- _ =>
             apply N.ltb_lt, sextet_ok_below_64 in K
         end.
  repeat apply conj; assumption.
Qed.

(** The three bytes come back from the four sextets. *)
Lemma bytes_of_sextets (a b c : N) :
  (a < 256)%N -> (b < 256)%N -> (c < 256)%N ->
  let v2 := N.lor (N.shiftl (N.land a 3) 4) (N.shiftr b 4) in
  let v3 := N.lor (N.shiftl (N.land b 15) 2) (N.shiftr c 6) in
  N.lor (N.shiftl (N.shiftr a 2) 2) (N.shiftr v2 4) = a
  /\ N.lor (N.shiftl (N.land v2 15) 4) (N.shiftr v3 2) = b
  /\ N.lor (N.shiftl (N.land v3 3) 6) (N.land c 63) = c
  /\ N.lor (N.shiftl (N.shiftr a 2) 2)
           (N.shiftr (N.shiftl (N.land a 3) 4) 4) = a
  /\ N.lor (N.shiftl (N.land v2 15) 4)
           (N.shiftr (N.shiftl (N.land b 15) 2) 2) = b.
Proof.
  intros Ha Hb Hc v2 v3.
  assert (H1 := for_all_bytes2_sound
    (fun a b =>
       let v2 := N.lor (N.shiftl (N.land a 3) 4) (N.shiftr b 4) in
       N.eqb (N.lor (N.shiftl (N.shiftr a 2) 2) (N.shiftr v2 4)) a
       && N.eqb (N.land v2 15) (N.shiftr b 4)
       && N.eqb (N.lor (N.shiftl (N.shiftr a 2) 2)
                       (N.shiftr (N.shiftl (N.land a 3) 4) 4)) a)
    ltac:(vm_compute; reflexivity) a b Ha Hb).
  assert (H2 := for_all_bytes2_sound
    (fun b c =>
       let v3 := N.lor (N.shiftl (N.land b 15) 2) (N.shiftr c 6) in
       N.eqb (N.lor (N.shiftl (N.shiftr b 4) 4) (N.shiftr v3 2)) b
       && N.eqb (N.land v3 3) (N.shiftr c 6)
       && N.eqb (N.lor (N.shiftl (N.shiftr c 6) 6) (N.land c 63)) c
       && N.eqb (N.lor (N.shiftl (N.shiftr b 4) 4)
                       (N.shiftr (N.shiftl (N.land b 15) 2) 2)) b)
    ltac:(vm_compute; reflexivity) b c Hb Hc).
  cbv beta zeta in H1, H2.
  do 2 (apply andb_true_iff in H1 as [H1 ?]).
  do 3 (apply andb_true_iff in H2 as [H2 ?]).
  repeat match goal with H : N.eqb _ _ = true |- _ => apply N.eqb_eq in H end.
  subst v2 v3.
  repeat split; congruence.
Qed.

Lemma base64_quad_3 (a b c : N) :
  (a < 256)%N -> (b < 256)%N -> (c < 256)%N ->
  base64_quad
    (JS.base64_digit (N.shiftr a 2),
     JS.base64_digit (N.lor (N.shiftl (N.land a 3) 4) (N.shiftr b 4)),
     JS.base64_digit (N.lor (N.shiftl (N.land b 15) 2) (N.shiftr c 6)),
     JS.base64_digit (N.land c 63))
  = Some [a; b; c].
Proof.
  intros Ha Hb Hc.
  destruct (sextets_ok12 a b Ha Hb) as [K1 [K2 _]].
  destruct (sextets_ok12 b c Hb Hc) as [_ [_ [K3 [K4 _]]]].
  apply sextet_ok_spec in K1 as [V1 _], K2 as [V2 _], K3 as [V3 P3],
    K4 as [V4 P4].
  destruct (bytes_of_sextets a b c Ha Hb Hc) as [B1 [B2 [B3 _]]].
  unfold base64_quad. rewrite V1, V2, P3, V3, P4, V4, B1, B2, B3.
  reflexivity.
Qed.

Lemma base64_quad_2 (a b : N) :
  (a < 256)%N -> (b < 256)%N ->
  base64_quad
    (JS.base64_digit (N.shiftr a 2),
     JS.base64_digit (N.lor (N.shiftl (N.land a 3) 4) (N.shiftr b 4)),
     JS.base64_digit (N.shiftl (N.land b 15) 2),
     JS.base64_pad)
  = Some [a; b].
Proof.
  intros Ha Hb.
  destruct (sextets_ok12 a b Ha Hb) as [K1 [K2 [_ [_ [_ K6]]]]].
  apply sextet_ok_spec in K1 as [V1 _], K2 as [V2 _], K6 as [V3 P3].
  destruct (bytes_of_sextets a b b Ha Hb Hb) as [B1 [_ [_ [_ B2]]]].
  unfold base64_quad. rewrite V1, V2, P3, V3, N.eqb_refl, B1, B2.
  reflexivity.
Qed.

Lemma base64_quad_1 (a : N) :
  (a < 256)%N ->
  base64_quad
    (JS.base64_digit (N.shiftr a 2),
     JS.base64_digit (N.shiftl (N.land a 3) 4),
     JS.base64_pad, JS.base64_pad)
  = Some [a].
Proof.
  intros Ha.
  destruct (sextets_ok12 a a Ha Ha) as [K1 [_ [_ [_ [K5 _]]]]].
  apply sextet_ok_spec in K1 as [V1 _], K5 as [V2 _].
  destruct (bytes_of_sextets a a a Ha Ha Ha) as [_ [_ [_ [B1 _]]]].
  unfold base64_quad. rewrite V1, V2, N.eqb_refl, B1.
  reflexivity.
Qed.

Lemma list_ind3 (P : list N -> Prop) :
  P [] -> (forall a, P [a]) -> (forall a b, P [a; b]) ->
  (forall a b c l, P l -> P (a :: b :: c :: l)) ->
  forall l, P l.
Proof.
  intros H0 H1 H2 H3. fix F 1.
  intros [|a [|b [|c l]]]; [exact H0 | apply H1 | apply H2 |].
  apply H3. apply F.
Qed.

Lemma base64_encode_nil (l : list N) : JS.base64_encode l = [] -> l = [].
Proof. destruct l as [|a [|b [|c l]]]; simpl; (reflexivity || discriminate). Qed.

(** Decoding the Base64 text of a sequence of bytes gives the bytes
    back. *)
Lemma base64_roundtrip (bytes : list N) :
  Forall (fun b => (b < 256)%N) bytes ->
  base64_decode (JS.base64_encode bytes) = Some bytes.
Proof.
  induction bytes as [|a|a b|a b c l IH] using list_ind3; intros H.
  - reflexivity.
  - inversion H; subst.
    cbn [JS.base64_encode base64_decode].
    rewrite base64_quad_1 by assumption. reflexivity.
  - inversion H as [|? ? Ha H']; subst. inversion H'; subst.
    cbn [JS.base64_encode base64_decode].
    rewrite base64_quad_2 by assumption. reflexivity.
  - inversion H as [|? ? Ha H']; subst.
    inversion H' as [|? ? Hb H'']; subst.
    inversion H'' as [|? ? Hc Hl]; subst.
    cbn [JS.base64_encode base64_decode].
    rewrite base64_quad_3 by assumption.
    rewrite (IH Hl).
    destruct (JS.base64_encode l) eqn:E.
    + apply base64_encode_nil in E. subst l. reflexivity.
    + reflexivity.
Qed.

Lemma Buffer_base64_roundtrip (buf : list byte) :
  base64_decode (JS.Buffer_toString_base64 buf) = Some (map Byte.to_N buf).
Proof.
  unfold JS.Buffer_toString_base64. apply base64_roundtrip.
  apply Forall_forall. intros n Hn. apply in_map_iff in Hn as [b [<- _]].
  pose proof (Byte.to_N_bounded b). lia.
Qed.

(* ------------------------------------------------------------------ *)
(** ** Request validation *)

Lemma startsWith_refl (a : jsstring) : JS.startsWith a a = true.
Proof.
  induction a as [|c a IH]; simpl; [reflexivity|].
  rewrite N.eqb_refl, IH. reflexivity.
Qed.

Lemma mentions_suffix (prefix name : jsstring) :
  mentions (prefix ++ name) name = true.
Proof.
  induction prefix as [|c prefix IH].
  - destruct name; simpl; [reflexivity|].
    rewrite N.eqb_refl, startsWith_refl. reflexivity.
  - change ((c :: prefix) ++ name) with (c :: (prefix ++ name)).
    cbn [mentions]. rewrite IH. apply orb_true_r.
Qed.

Lemma image_ext_cases (ext : jsstring) :
  isSupportedImageExt ext = true ->
  ext = JS.lit "png" \/ ext = JS.lit "jpg" \/ ext = JS.lit "jpeg"
  \/ ext = JS.lit "webp".
Proof.
  unfold isSupportedImageExt. intros H.
  repeat (apply orb_true_iff in H as [H|H]);
    apply jseqb_eq in H; auto.
Qed.

Section Validation.

Context {json worksheet : Type} (host : Host json worksheet).

(** C10: the extension under which an attachment is dispatched is what
    follows the last dot of its file name, in lower case, so that
    [X.PDF] is dispatched as [pdf]; a file name without a dot has the
    empty extension, which none of the six extension tests accepts, so
    the iteration over such an attachment returns status 400 with the
    unsupported-format message of its field, which ends with the file
    name; that is the response of the request when the attachments
    before it went through. *)
Theorem getExt_dispatch :
  (forall stem ext,
     ~ In dot ext ->
     getExt host (stem ++ dot :: ext)
     = JS.toLowerCase (unicode_toLowerCase host) ext)
  /\ (forall ext,
        forallb JS.is_ascii ext = true ->
        JS.toLowerCase (unicode_toLowerCase host) ext
        = map JS.ascii_lower ext)
  /\ getExt host (JS.lit "X.PDF") = JS.lit "pdf"
  /\ isSupportedPdfExt (getExt host (JS.lit "X.PDF")) = true
  /\ (forall filename, ~ In dot filename -> getExt host filename = [])
  /\ (isSupportedTextExt [] = false /\ isSupportedExcelExt [] = false
      /\ isSupportedPdfExt [] = false /\ isSupportedDocxExt [] = false
      /\ isSupportedPptxExt [] = false /\ isSupportedImageExt [] = false)
  /\ (forall f,
        ~ In dot (originalname f) ->
        contextFileStep host f
        = Return {| status := 400;
                    body := Failure (JS.lit "逐字稿欄不支援的檔案格式："
                                       ++ originalname f) |}
        /\ rubricFileStep host f
           = Return {| status := 400;
                       body := Failure (JS.lit "評分表欄不支援的檔案格式："
                                          ++ originalname f) |}
        /\ mentions (JS.lit "逐字稿欄不支援的檔案格式：" ++ originalname f)
                    (originalname f) = true
        /\ mentions (JS.lit "評分表欄不支援的檔案格式：" ++ originalname f)
                    (originalname f) = true)
  /\ (forall req pre f post parsed,
        contextFiles req = pre ++ f :: post ->
        ~ In dot (originalname f) ->
        contextLoop host pre [] [] = Next parsed ->
        generate host req
        = ({| status := 400;
              body := Failure (JS.lit "逐字稿欄不支援的檔案格式："
                                 ++ originalname f) |}, []))
  /\ (forall req pre f post parsed chunks,
        contextLoop host (contextFiles req) [] [] = Next parsed ->
        rubricFiles req = pre ++ f :: post ->
        ~ In dot (originalname f) ->
        rubricLoop host pre [] = Next chunks ->
        generate host req
        = ({| status := 400;
              body := Failure (JS.lit "評分表欄不支援的檔案格式："
                                 ++ originalname f) |}, [])).
Proof.
  assert (Hstep : forall f,
            ~ In dot (originalname f) ->
            contextFileStep host f
            = Return (bad_request (JS.lit "逐字稿欄不支援的檔案格式："
                                     ++ originalname f))
            /\ rubricFileStep host f
               = Return (bad_request (JS.lit "評分表欄不支援的檔案格式："
                                        ++ originalname f))).
  { intros f Hf. pose proof (getExt_no_dot host (originalname f) Hf) as E.
    dispatch_on E. split; reflexivity. }
  repeat apply conj.
  - apply getExt_after_last_dot.
  - intros ext H. unfold JS.toLowerCase. rewrite H. reflexivity.
  - vm_compute. reflexivity.
  - vm_compute. reflexivity.
  - apply getExt_no_dot.
  - reflexivity.
  - reflexivity.
  - reflexivity.
  - reflexivity.
  - reflexivity.
  - reflexivity.
  - intros f Hf. destruct (Hstep f Hf) as [H1 H2].
    split; [exact H1|]. split; [exact H2|].
    split; apply mentions_suffix.
  - intros req pre f post parsed Hfiles Hf Hpre.
    apply generate_Return.
    exact (prepare_context_Return host req pre post f parsed _
             Hfiles Hpre (proj1 (Hstep f Hf))).
  - intros req pre f post parsed chunks Hctx Hfiles Hf Hpre.
    apply generate_Return.
    exact (prepare_rubric_Return host req pre post f parsed chunks _
             Hctx Hfiles Hpre (proj2 (Hstep f Hf))).
Qed.

(** C5 (as amended): when the transcript attachments have all been
    processed, no image input was produced and the merged transcript
    text is empty after trimming, the completion client is not called
    and the response is a failure; when moreover the rubric attachments
    have all been processed, the response has status 400 and the message
    that the transcript content is missing. *)
Theorem missing_transcript_rejected (req : Request)
    (contextTextChunks : list jsstring) (imageInputs : list ImageInput) :
  contextLoop host (contextFiles req) [] []
  = Next (contextTextChunks, imageInputs) ->
  JS.trim (mergedContext (baseContext (req_body req)) contextTextChunks) = [] ->
  imageInputs = [] ->
  snd (generate host req) = []
  /\ ok (body (fst (generate host req))) = false
  /\ (status (fst (generate host req)) = 400%N
      \/ status (fst (generate host req)) = 500%N)
  /\ (forall rubricTextChunks,
        rubricLoop host (rubricFiles req) [] = Next rubricTextChunks ->
        generate host req
        = ({| status := 400; body := Failure missing_transcript |}, []))
  /\ missing_transcript
     = JS.lit "缺少逐字稿內容：請輸入逐字稿文字或上傳逐字稿檔案。".
Proof.
  intros Hctx Hblank Himg. subst imageInputs.
  assert (Hprep : forall cs,
            rubricLoop host (rubricFiles req) [] = Next cs ->
            prepare host req = Return (bad_request missing_transcript)).
  { intros cs Hr. unfold prepare. rewrite Hctx. cbn [bind]. rewrite Hr. cbn [bind fst snd].
    rewrite safe_default. cbn [opt_string]. rewrite Hblank. reflexivity. }
  assert (Hno : forall c, prepare host req <> Next c).
  { intros c. destruct (rubricLoop host (rubricFiles req) []) as [cs|r|e] eqn:Hr.
    - rewrite (Hprep cs eq_refl). discriminate.
    - unfold prepare. rewrite Hctx. cbn [bind]. rewrite Hr. discriminate.
    - unfold prepare. rewrite Hctx. cbn [bind]. rewrite Hr. discriminate. }
  destruct (generate_not_dispatched host req Hno) as [H1 [H2 H3]].
  split; [exact H1|]. split; [exact H2|]. split; [exact H3|].
  split; [|reflexivity].
  intros cs Hr. apply generate_Return. exact (Hprep cs Hr).
Qed.

(** C6 (as amended): an attachment with an image extension makes the
    iteration over it in the rubric loop return status 400 with a message
    that ends with its file name, and a request with such a rubric
    attachment is answered with a failure without the completion client
    being called; the response is the one for that file when the
    transcript attachments and the rubric attachments before it have
    been processed.  In the transcript loop the same attachment yields
    an image input: a data URL with the media type of the extension and
    the Base64 text of the file's bytes. *)
Theorem rubric_image_rejected (req : Request) (pre post : list File)
    (f : File) :
  isSupportedImageExt (getExt host (originalname f)) = true ->
  rubricFiles req = pre ++ f :: post ->
  rubricFileStep host f
  = Return {| status := 400;
              body := Failure (JS.lit "評分表欄不接受圖片檔：" ++ originalname f) |}
  /\ mentions (JS.lit "評分表欄不接受圖片檔：" ++ originalname f)
              (originalname f) = true
  /\ snd (generate host req) = []
  /\ ok (body (fst (generate host req))) = false
  /\ (forall parsed chunks,
        contextLoop host (contextFiles req) [] [] = Next parsed ->
        rubricLoop host pre [] = Next chunks ->
        generate host req
        = ({| status := 400;
              body := Failure (JS.lit "評分表欄不接受圖片檔："
                                 ++ originalname f) |}, []))
  /\ (exists mime,
        media_type (getExt host (originalname f)) = Some mime
        /\ contextFileStep host f
           = Next (Image {| image_url :=
                              JS.lit "data:" ++ mime ++ JS.lit ";base64,"
                                ++ JS.Buffer_toString_base64 (buffer f) |})
        /\ base64_decode (JS.Buffer_toString_base64 (buffer f))
           = Some (map Byte.to_N (buffer f))).
Proof.
  intros Himg Hfiles.
  assert (Hstep : rubricFileStep host f
                  = Return (bad_request (JS.lit "評分表欄不接受圖片檔："
                                           ++ originalname f))).
  { unfold rubricFileStep. rewrite Himg. reflexivity. }
  assert (Hno : forall c, prepare host req <> Next c).
  { intros c. unfold prepare.
    destruct (contextLoop host (contextFiles req) [] []) as [parsed|r|e];
      cbn [bind]; try discriminate.
    rewrite Hfiles.
    destruct (rubricLoop host (pre ++ f :: post) []) as [cs|r|e] eqn:Hr;
      cbn [bind]; try discriminate.
    exfalso. exact (rubricLoop_stops host pre post f _ Hstep [] cs Hr). }
  destruct (generate_not_dispatched host req Hno) as [H1 [H2 _]].
  split; [exact Hstep|]. split; [apply mentions_suffix|].
  split; [exact H1|]. split; [exact H2|]. split.
  - intros parsed chunks Hctx Hpre. apply generate_Return.
    exact (prepare_rubric_Return host req pre post f parsed chunks _
             Hctx Hfiles Hpre Hstep).
  - apply image_ext_cases in Himg.
    destruct Himg as [E|[E|[E|E]]];
      [exists (JS.lit "image/png") | exists (JS.lit "image/jpeg")
      | exists (JS.lit "image/jpeg") | exists (JS.lit "image/webp")];
      (split; [rewrite E; vm_compute; reflexivity|]);
      (split; [dispatch_on E; reflexivity | apply Buffer_base64_roundtrip]).
Qed.

End Validation.

Lemma getExt_dispatch_witness :
  generate quiet_host (request None [file "a.txt" "hi"; file "README" "x"] [])
  = ({| status := 400;
        body := Failure (JS.lit "逐字稿欄不支援的檔案格式：README") |}, []).
Proof.
  rewrite (proj1 (proj2 (proj2 (proj2 (proj2 (proj2 (proj2 (proj2
             (getExt_dispatch quiet_host))))))))
             (request None [file "a.txt" "hi"; file "README" "x"] [])
             [file "a.txt" "hi"] (file "README" "x") []
             ([JS.lit "[逐字稿附件文字：a.txt]" ++ JS.NL ++ JS.lit "hi"], [])
             ltac:(reflexivity)
             ltac:(vm_compute; intuition discriminate)
             ltac:(vm_compute; reflexivity)).
  vm_compute. reflexivity.
Defined.

Lemma missing_transcript_rejected_witness :
  generate quiet_host (request (Some (JS.lit "   ")) [] [file "r.txt" "rule"])
  = ({| status := 400;
        body := Failure
                  (JS.lit "缺少逐字稿內容：請輸入逐字稿文字或上傳逐字稿檔案。") |},
     []).
Proof.
  apply (proj1 (proj2 (proj2 (proj2
           (missing_transcript_rejected quiet_host
              (request (Some (JS.lit "   ")) [] [file "r.txt" "rule"])
              [] []
              ltac:(reflexivity) ltac:(vm_compute; reflexivity)
              ltac:(reflexivity)))))
           [JS.lit "[評分表附件文字：r.txt]" ++ JS.NL ++ JS.lit "rule"]).
  vm_compute. reflexivity.
Defined.

(** C5 as stated fails: with no transcript text, no transcript
    attachment and an image among the rubric attachments, the merged
    transcript text is empty and no image input was produced, but the
    response is the rejection of the rubric image, not the message that
    the transcript is missing. *)
Lemma missing_transcript_not_reported :
  contextLoop quiet_host (contextFiles rubric_image_only) [] [] = Next ([], [])
  /\ JS.trim (mergedContext (baseContext (req_body rubric_image_only)) []) = []
  /\ generate quiet_host rubric_image_only
     = ({| status := 400;
           body := Failure (JS.lit "評分表欄不接受圖片檔：r.png") |}, [])
  /\ fst (generate quiet_host rubric_image_only)
     <> {| status := 400; body := Failure missing_transcript |}.
Proof.
  repeat apply conj; try (vm_compute; reflexivity).
  vm_compute. discriminate.
Qed.

Lemma rubric_image_rejected_witness :
  generate quiet_host
    (request (Some (JS.lit "hi")) [] [file "r.txt" "rule"; file "b.PNG" "y"])
  = ({| status := 400;
        body := Failure (JS.lit "評分表欄不接受圖片檔：b.PNG") |}, []).
Proof.
  rewrite (proj1 (proj2 (proj2 (proj2 (proj2
             (rubric_image_rejected quiet_host
                (request (Some (JS.lit "hi")) []
                   [file "r.txt" "rule"; file "b.PNG" "y"])
                [file "r.txt" "rule"] [] (file "b.PNG" "y")
                ltac:(vm_compute; reflexivity) ltac:(reflexivity))))))
             ([], [])
             [JS.lit "[評分表附件文字：r.txt]" ++ JS.NL ++ JS.lit "rule"]
             ltac:(reflexivity) ltac:(vm_compute; reflexivity)).
  vm_compute. reflexivity.
Defined.

(** C6 as stated fails: a request with an image among its rubric
    attachments, submitted after an attachment of an unsupported format,
    is answered with the rejection of that earlier attachment; the
    message does not name the image file. *)
Lemma rubric_image_not_named :
  In (file "b.png" "y") (rubricFiles two_bad_rubric_files)
  /\ isSupportedImageExt
       (getExt quiet_host (originalname (file "b.png" "y"))) = true
  /\ generate quiet_host two_bad_rubric_files
     = ({| status := 400;
           body := Failure (JS.lit "評分表欄不支援的檔案格式：a.exe") |}, [])
  /\ mentions (JS.lit "評分表欄不支援的檔案格式：a.exe") (JS.lit "b.png")
     = false.
Proof.
  repeat apply conj; try (vm_compute; reflexivity).
  right. left. reflexivity.
Qed.

(* ------------------------------------------------------------------ *)
(** ** Further properties of the handler *)

Section Further.

Context {json worksheet : Type} (host : Host json worksheet).

(** The completion client is called at most once per request; when the
    request passes validation it is called exactly once, and its answer
    decides the response: status 200 with the output text (the empty
    string when there is none), or status 500 with the message of the
    exception (or [Unknown error]). *)
Theorem completion_outcome (req : Request) (request : CompletionRequest) :
  prepare host req = Next request ->
  (List.length (snd (generate host req)) <= 1)%nat
  /\ snd (generate host req) = [request]
  /\ (forall output_text,
        responses_create host request = Resolved output_text ->
        fst (generate host req)
        = {| status := 200; body := Success (opt_string output_text) |})
  /\ (forall err,
        responses_create host request = Rejected err ->
        fst (generate host req)
        = {| status := 500;
             body := Failure (JS.or_else (opt_string err)
                                         (JS.lit "Unknown error")) |}).
Proof.
  intros H. unfold generate. rewrite H.
  destruct (responses_create host request) as [o|e]; cbn [fst snd List.length].
  - repeat split; [lia | intros ? E; injection E as <-; reflexivity
                  | intros ? E; discriminate].
  - repeat split; [lia | intros ? E; discriminate
                  | intros ? E; injection E as <-; reflexivity].
Qed.

(** When [template.txt] does not exist, a request that passes validation
    is answered with status 500 and the message of the error thrown by
    [loadTemplate], and the completion client is not called. *)
Theorem missing_template (req : Request) (contextTextChunks : list jsstring)
    (imageInputs : list ImageInput) (rubricTextChunks : list jsstring) :
  template_txt host = None ->
  contextLoop host (contextFiles req) [] []
  = Next (contextTextChunks, imageInputs) ->
  rubricLoop host (rubricFiles req) [] = Next rubricTextChunks ->
  JS.trim (mergedContext (baseContext (req_body req)) contextTextChunks) <> []
  \/ imageInputs <> [] ->
  generate host req
  = ({| status := 500;
        body := Failure (JS.lit "找不到 template.txt。請在專案根目錄建立 template.txt，並把你的完整 prompt 原封不動貼進去。") |},
     []).
Proof.
  intros Ht Hctx Hr Hvalid.
  assert (Hp : prepare host req
               = Throw (Some (JS.lit "找不到 template.txt。請在專案根目錄建立 template.txt，並把你的完整 prompt 原封不動貼進去。"))).
  { unfold prepare. rewrite Hctx. cbn [bind]. rewrite Hr. cbn [bind fst snd].
    rewrite safe_default. cbn [opt_string].
    assert (Hc : negb (JS.truthy (JS.trim
                   (mergedContext (baseContext (req_body req)) contextTextChunks)))
                 && Nat.eqb (List.length imageInputs) 0 = false).
    { destruct Hvalid as [Hv|Hv].
      - destruct (JS.trim _); [congruence | reflexivity].
      - destruct imageInputs; [congruence|]. apply andb_false_r. }
    rewrite Hc. unfold loadTemplate. rewrite Ht. reflexivity. }
  unfold generate. rewrite Hp. unfold internal_error.
  cbn [opt_string]. reflexivity.
Qed.

(** A Word attachment, in either field, yields a chunk whatever text the
    extractor returns: the substitute message when the text is missing,
    empty or all white space, the clamped, trimmed text otherwise. *)
Theorem docx_attachment (f : File) (result : option jsstring) :
  getExt host (originalname f) = JS.lit "docx" ->
  mammoth_extractRawText host (buffer f) = Resolved result ->
  let docText := JS.trim (opt_string result) in
  let shown := if JS.truthy docText then clampText docText default_maxChars
               else JS.lit "（此 Word 檔未能解析出文字）" in
  contextFileStep host f
  = Next (TextChunk (JS.lit "[逐字稿附件Word：" ++ originalname f
                       ++ JS.lit "]" ++ JS.NL ++ shown))
  /\ rubricFileStep host f
     = Next (JS.lit "[評分表附件Word：" ++ originalname f
               ++ JS.lit "]" ++ JS.NL ++ shown)
  /\ (docText = [] <-> forallb JS.is_white_space (opt_string result) = true).
Proof.
  intros Hext Hres docText shown.
  split; [|split].
  - dispatch_on Hext. rewrite Hres. reflexivity.
  - dispatch_on Hext. rewrite Hres. reflexivity.
  - apply trim_nil_iff.
Qed.

(** [buildInputBundle]: without rubric text the bundle is the trimmed
    transcript text; otherwise it is the trimmed transcript text, an
    empty line, the rule, the rubric heading and the trimmed rubric
    text, one per line. *)
Theorem buildInputBundle_spec (ctx rb : option jsstring) :
  (JS.trim (opt_string rb) = [] ->
   buildInputBundle ctx rb = JS.trim (opt_string ctx))
  /\ (JS.trim (opt_string rb) <> [] ->
      buildInputBundle ctx rb
      = JS.trim (opt_string ctx) ++ JS.NL ++ JS.NL
          ++ JS.lit "────────────────────" ++ JS.NL
          ++ JS.lit "【補充：評分規則／rubric（輸入資料的一部分）】" ++ JS.NL
          ++ JS.trim (opt_string rb)).
Proof.
  unfold buildInputBundle. rewrite !safe_default. split; intros H.
  - rewrite H. reflexivity.
  - destruct (JS.trim (opt_string rb)) eqn:E; [congruence|].
    cbn [JS.truthy negb JS.join]. rewrite app_nil_l. reflexivity.
Qed.

End Further.

Lemma completion_outcome_witness :
  generate quiet_host (request (Some (JS.lit "hello")) [] [])
  = ({| status := 200; body := Success (JS.lit "out") |},
     [{| model := JS.lit "gpt-5-mini";
         instructions := system_instructions;
         input_text := JS.lit "hello";
         input_images := [] |}]).
Proof.
  pose proof (completion_outcome quiet_host
                (request (Some (JS.lit "hello")) [] [])
                {| model := JS.lit "gpt-5-mini";
                   instructions := system_instructions;
                   input_text := JS.lit "hello";
                   input_images := [] |}
                ltac:(vm_compute; reflexivity)) as [_ [H2 [H3 _]]].
  specialize (H3 (Some (JS.lit "out")) ltac:(reflexivity)).
  rewrite (surjective_pairing (generate _ _)), H2, H3. reflexivity.
Defined.

Lemma missing_template_witness :
  generate no_template_host (request (Some (JS.lit "hello")) [] [])
  = ({| status := 500;
        body := Failure (JS.lit "找不到 template.txt。請在專案根目錄建立 template.txt，並把你的完整 prompt 原封不動貼進去。") |},
     []).
Proof.
  apply (missing_template no_template_host
           (request (Some (JS.lit "hello")) [] []) [] [] []);
    try reflexivity.
  left. vm_compute. discriminate.
Defined.

Lemma docx_attachment_witness :
  contextFileStep quiet_host (file "memo.docx" "PK")
  = Next (TextChunk (JS.lit "[逐字稿附件Word：memo.docx]" ++ JS.NL
                       ++ JS.lit "（此 Word 檔未能解析出文字）")).
Proof.
  rewrite (proj1 (docx_attachment quiet_host (file "memo.docx" "PK") None
                    ltac:(vm_compute; reflexivity) ltac:(reflexivity))).
  vm_compute. reflexivity.
Defined.

Lemma buildInputBundle_spec_witness :
  buildInputBundle (Some (JS.lit " a ")) (Some (JS.lit "  ")) = JS.lit "a".
Proof.
  rewrite (proj1 (buildInputBundle_spec (Some (JS.lit " a "))
                    (Some (JS.lit "  ")))
             ltac:(vm_compute; reflexivity)).
  vm_compute. reflexivity.
Defined.

(* ------------------------------------------------------------------ *)
(** ** White space and [safe] *)

Lemma trimStart_idempotent (s : jsstring) :
  JS.trimStart (JS.trimStart s) = JS.trimStart s.
Proof.
  induction s as [|c s IH]; [reflexivity|].
  cbn [JS.trimStart]. destruct (JS.is_white_space c) eqn:E; [exact IH|].
  cbn [JS.trimStart]. rewrite E. reflexivity.
Qed.

Lemma trimStart_app_solid (l : jsstring) (c : JS.code_unit) :
  JS.is_white_space c = false ->
  JS.trimStart (l ++ [c]) = JS.trimStart l ++ [c].
Proof.
  intros Hc. induction l as [|d l IH].
  - change ([] ++ [c]) with [c]. cbn [JS.trimStart]. rewrite Hc.
    reflexivity.
  - change ((d :: l) ++ [c]) with (d :: (l ++ [c])). cbn [JS.trimStart].
    destruct (JS.is_white_space d); [exact IH | reflexivity].
Qed.

Lemma trimEnd_cons_solid (c : JS.code_unit) (s : jsstring) :
  JS.is_white_space c = false ->
  JS.trimEnd (c :: s) = c :: JS.trimEnd s.
Proof.
  intros Hc. unfold JS.trimEnd.
  change (List.rev (c :: s)) with (List.rev s ++ [c]).
  rewrite trimStart_app_solid by assumption.
  rewrite rev_app_distr. reflexivity.
Qed.

Lemma trimEnd_idempotent (s : jsstring) :
  JS.trimEnd (JS.trimEnd s) = JS.trimEnd s.
Proof.
  unfold JS.trimEnd. rewrite rev_involutive, trimStart_idempotent.
  reflexivity.
Qed.

Lemma trimStart_head (s : jsstring) :
  match JS.trimStart s with
  | [] => True
  | c :: _ => JS.is_white_space c = false
  end.
Proof.
  induction s as [|c s IH]; [exact I|].
  cbn [JS.trimStart]. destruct (JS.is_white_space c) eqn:E; [exact IH | exact E].
Qed.

(** A trimmed string begins with a code unit that is not white space,
    unless it is empty. *)
Lemma trim_head (s : jsstring) :
  match JS.trim s with
  | [] => True
  | c :: _ => JS.is_white_space c = false
  end.
Proof.
  unfold JS.trim. pose proof (trimStart_head s) as H.
  destruct (JS.trimStart s) as [|c u]; [exact I|].
  rewrite trimEnd_cons_solid by assumption. exact H.
Qed.

(** And it ends with one. *)
Lemma trim_last (s : jsstring) :
  match List.rev (JS.trim s) with
  | [] => True
  | c :: _ => JS.is_white_space c = false
  end.
Proof.
  unfold JS.trim, JS.trimEnd. rewrite rev_involutive. apply trimStart_head.
Qed.

Lemma trim_idempotent (s : jsstring) : JS.trim (JS.trim s) = JS.trim s.
Proof.
  unfold JS.trim at 1.
  assert (H : JS.trimStart (JS.trim s) = JS.trim s).
  { pose proof (trim_head s) as Hh. destruct (JS.trim s) as [|c u];
      [reflexivity|]. cbn [JS.trimStart]. rewrite Hh. reflexivity. }
  rewrite H. unfold JS.trim. apply trimEnd_idempotent.
Qed.

(** A string with a code unit that is not white space does not trim to
    the empty string. *)
Lemma trim_solid (s : jsstring) (c : JS.code_unit) :
  In c s -> JS.is_white_space c = false -> JS.trim s <> [].
Proof.
  intros Hin Hc E. apply trim_nil_iff in E.
  rewrite forallb_forall in E. rewrite (E c Hin) in Hc. discriminate.
Qed.

(** [safe] returns the fallback exactly when the value is missing or all
    white space; otherwise it returns the value without the white space
    at its two ends, which is then not empty and neither begins nor ends
    with white space.  Applying [safe] to its own result changes
    nothing. *)
Theorem safe_spec (v : option jsstring) (fallback : jsstring) :
  (forallb JS.is_white_space (opt_string v) = true ->
   safe v fallback = fallback)
  /\ (forallb JS.is_white_space (opt_string v) = false ->
      safe v fallback = JS.trim (opt_string v)
      /\ safe v fallback <> []
      /\ (exists first middle,
            safe v fallback = first :: middle
            /\ JS.is_white_space first = false)
      /\ (exists front last,
            safe v fallback = front ++ [last]
            /\ JS.is_white_space last = false))
  /\ safe (Some (safe v [])) [] = safe v [].
Proof.
  rewrite safe_fallback. split; [|split].
  - intros H. apply trim_nil_iff in H. rewrite H. reflexivity.
  - intros H.
    assert (Hne : JS.trim (opt_string v) <> []).
    { intros E. apply trim_nil_iff in E. congruence. }
    pose proof (trim_head (opt_string v)) as Hh.
    pose proof (trim_last (opt_string v)) as Hl.
    destruct (JS.trim (opt_string v)) as [|c u] eqn:E; [congruence|].
    cbn [JS.truthy]. split; [reflexivity|]. split; [discriminate|]. split.
    + exists c, u. auto.
    + destruct (List.rev (c :: u)) as [|l r] eqn:Er.
      * apply (f_equal (@List.length _)) in Er.
        rewrite length_rev in Er. discriminate.
      * exists (List.rev r), l. split; [|exact Hl].
        rewrite <- (rev_involutive (c :: u)), Er. reflexivity.
  - rewrite !safe_default. cbn [opt_string]. apply trim_idempotent.
Qed.

Lemma safe_spec_witness :
  safe (Some (JS.lit "  hi there ")) (JS.lit "none") = JS.lit "hi there"
  /\ safe (Some (JS.lit "   ")) (JS.lit "none") = JS.lit "none".
Proof.
  split.
  - rewrite (proj1 (proj1 (proj2 (safe_spec (Some (JS.lit "  hi there "))
                                    (JS.lit "none")))
                      ltac:(vm_compute; reflexivity))).
    vm_compute. reflexivity.
  - apply (proj1 (safe_spec (Some (JS.lit "   ")) (JS.lit "none"))).
    vm_compute. reflexivity.
Defined.

(* ------------------------------------------------------------------ *)
(** ** The extension tests *)

Ltac known_ext E :=
  repeat (apply orb_true_iff in E as [E|E]);
  apply jseqb_eq in E; subst; vm_compute; lia.

(** The six extension tests accept pairwise disjoint sets: no extension
    passes more than one of them, so the order in which the two loops
    try them (images last for the transcript, first for the rubric)
    does not change which branch handles a file. *)
Theorem extension_tests_disjoint (ext : jsstring) :
  (List.length (filter (fun b => b) (extension_tests ext)) <= 1)%nat.
Proof.
  unfold extension_tests.
  destruct (isSupportedTextExt ext) eqn:E1;
    [unfold isSupportedTextExt in E1; known_ext E1|].
  destruct (isSupportedExcelExt ext) eqn:E2;
    [unfold isSupportedExcelExt in E2; known_ext E2|].
  destruct (isSupportedImageExt ext) eqn:E3;
    [unfold isSupportedImageExt in E3; known_ext E3|].
  destruct (isSupportedPdfExt ext) eqn:E4;
    [unfold isSupportedPdfExt in E4; known_ext E4|].
  destruct (isSupportedDocxExt ext) eqn:E5;
    [unfold isSupportedDocxExt in E5; known_ext E5|].
  destruct (isSupportedPptxExt ext); simpl; lia.
Qed.

(* ------------------------------------------------------------------ *)
(** ** More on the truncation guard *)

Lemma clamp_notice_length (n : nat) :
  JS.length (clamp_notice n)
  = 19 + Z.of_nat (List.length (JS.string_of_nat n))
  /\ 20 <= JS.length (clamp_notice n).
Proof.
  assert (H : JS.length (clamp_notice n)
              = 19 + Z.of_nat (List.length (JS.string_of_nat n))).
  { unfold clamp_notice, JS.length. rewrite !length_app.
    change (List.length JS.NL) with 1%nat.
    change (List.length (JS.lit "(…已截斷，原長度 ")) with 10%nat.
    change (List.length (JS.lit " chars)")) with 7%nat. lia. }
  split; [exact H|]. rewrite H.
  pose proof (digits_of_uint_nonempty (N.of_nat n)) as Hne.
  unfold JS.string_of_nat.
  destruct (JS.digits_of_uint (N.to_uint (N.of_nat n))); [congruence|].
  cbn [List.length]. lia.
Qed.

(** The budget of [clampText] bounds the part of the text that is kept,
    not the result: a truncated text is longer than the budget by the
    length of the notice, which is 19 code units plus the decimal digits
    of the original length, so at least 20.  A text that exceeds the
    budget by fewer than 20 code units therefore comes out longer than
    it went in. *)
Theorem clampText_can_lengthen (text : jsstring) (maxChars : Z) :
  0 <= maxChars < JS.length text ->
  JS.length (clampText text maxChars)
  = maxChars + 19
    + Z.of_nat (List.length (JS.string_of_nat (List.length text)))
  /\ maxChars + 20 <= JS.length (clampText text maxChars)
  /\ (JS.length text < maxChars + 20 ->
      JS.length text < JS.length (clampText text maxChars)).
Proof.
  intros [H0 Hlt].
  assert (Hlen : JS.length (clampText text maxChars)
                 = maxChars + JS.length (clamp_notice (List.length text))).
  { unfold clampText.
    destruct (JS.length text <=? maxChars) eqn:E;
      [apply Z.leb_le in E; lia|].
    rewrite slice_prefix by assumption.
    unfold JS.length in *. rewrite length_app, length_firstn. lia. }
  destruct (clamp_notice_length (List.length text)) as [Hn Hmin].
  rewrite Hlen. split; [lia|]. split; lia.
Qed.

Lemma clampText_can_lengthen_witness :
  JS.length (clampText (JS.lit "abcdef") 5) = 25.
Proof.
  rewrite (proj1 (clampText_can_lengthen (JS.lit "abcdef") 5
                    ltac:(split; [lia | vm_compute; reflexivity]))).
  vm_compute. reflexivity.
Defined.

(* ------------------------------------------------------------------ *)
(** ** Templates without placeholders *)

Lemma replaceAll_brace_free (s : jsstring) (f : Field) (rep : jsstring) :
  brace_free s = true -> JS.replaceAll s (placeholder f) rep = s.
Proof.
  intros H. destruct (placeholder_head f) as [pat' Hpat].
  unfold JS.replaceAll. rewrite Hpat.
  destruct (scan_text pat' rep s [] [] H) as [b' Hb'].
  rewrite app_nil_r in Hb'. rewrite Hb'. cbn [JS.replaceAll_scan].
  apply app_nil_r.
Qed.

(** A template with no [{{] and no final [{] holds no placeholder, and
    [buildPrompt] returns it unchanged whatever the payload is, also
    when the payload's texts contain placeholders or [$]-patterns. *)
Theorem buildPrompt_no_placeholder (template : jsstring) (p : Payload) :
  brace_free template = true -> buildPrompt template p = template.
Proof.
  intros H. rewrite buildPrompt_source_order.
  unfold substitute_in_order, source_order. cbn [fold_left].
  do 7 rewrite (replaceAll_brace_free template _ _ H). reflexivity.
Qed.

Lemma buildPrompt_no_placeholder_witness :
  buildPrompt (JS.lit "Summarise {this} for $5.")
              (payload (JS.lit "{{COACH_ROLE}} $&"))
  = JS.lit "Summarise {this} for $5.".
Proof.
  apply (buildPrompt_no_placeholder (JS.lit "Summarise {this} for $5.")
           (payload (JS.lit "{{COACH_ROLE}} $&"))).
  vm_compute. reflexivity.
Defined.

(* ------------------------------------------------------------------ *)
(** ** Slide decks, text files and failing parsers *)

Lemma slide_lines_spec (slides : list Slide) :
  forall lines, slide_lines slides lines = lines ++ map slide_block slides.
Proof.
  induction slides as [|s slides IH]; intros lines; simpl.
  - rewrite app_nil_r. reflexivity.
  - rewrite IH, <- app_assoc. reflexivity.
Qed.

Lemma join_first (sep x : jsstring) (rest : list jsstring) :
  exists tail, JS.join sep (x :: rest) = x ++ tail.
Proof.
  destruct rest as [|y rest]; simpl.
  - exists []. rewrite app_nil_r. reflexivity.
  - eexists. reflexivity.
Qed.

Lemma utf8_lead_ascii (b : N) :
  (b <= 127)%N -> JS.utf8_lead b = ([b], JS.Utf8Start).
Proof.
  intros H. unfold JS.utf8_lead.
  replace (N.leb b 127) with true by (symmetry; apply N.leb_le; exact H).
  reflexivity.
Qed.

Lemma utf8_ascii (buf : list byte) :
  Forall (fun b => (Byte.to_N b <= 127)%N) buf ->
  JS.Buffer_toString_utf8 buf = map Byte.to_N buf.
Proof.
  unfold JS.Buffer_toString_utf8.
  induction 1 as [|b buf Hb _ IH]; [reflexivity|].
  cbn [JS.utf8_run JS.utf8_step map].
  rewrite (utf8_lead_ascii _ Hb).
  change (flat_map JS.utf16_of_code_point
            ([Byte.to_N b] ++ JS.utf8_run JS.Utf8Start buf))
    with (JS.utf16_of_code_point (Byte.to_N b)
            ++ flat_map JS.utf16_of_code_point (JS.utf8_run JS.Utf8Start buf)).
  rewrite IH. unfold JS.utf16_of_code_point.
  replace (N.ltb (Byte.to_N b) 65536) with true
    by (symmetry; apply N.ltb_lt; lia).
  reflexivity.
Qed.

Section Parsers.

Context {json worksheet : Type} (host : Host json worksheet).

(** A slide deck, in either field: when the parser returns the slides,
    the text is their blocks in slide order joined by blank lines, the
    block of a slide being the banner with its id ([unknown] when it has
    none) and its text lines (nothing when its text is not an array).
    Since every block begins with the banner, the substitute message is
    used only for a deck without slides; a deck whose slides have no
    text yields its banners. *)
Theorem pptx_attachment (f : File) (slides : list Slide) :
  getExt host (originalname f) = JS.lit "pptx" ->
  PptxParser_extractText host (buffer f) = Resolved slides ->
  let pptText := JS.join (JS.NL ++ JS.NL) (map slide_block slides) in
  pptxBufferToText host (buffer f) = Next pptText
  /\ (slides = [] ->
      contextFileStep host f
      = Next (TextChunk (JS.lit "[逐字稿附件PPTX：" ++ originalname f
                           ++ JS.lit "]" ++ JS.NL
                           ++ JS.lit "（此 PPTX 未能解析出文字）"))
      /\ rubricFileStep host f
         = Next (JS.lit "[評分表附件PPTX：" ++ originalname f
                   ++ JS.lit "]" ++ JS.NL
                   ++ JS.lit "（此 PPTX 未能解析出文字）"))
  /\ (slides <> [] ->
      contextFileStep host f
      = Next (TextChunk (JS.lit "[逐字稿附件PPTX：" ++ originalname f
                           ++ JS.lit "]" ++ JS.NL
                           ++ clampText pptText default_maxChars))
      /\ rubricFileStep host f
         = Next (JS.lit "[評分表附件PPTX：" ++ originalname f
                   ++ JS.lit "]" ++ JS.NL
                   ++ clampText pptText default_maxChars)).
Proof.
  intros Hext Hslides pptText.
  assert (Hx : pptxBufferToText host (buffer f) = Next pptText).
  { unfold pptxBufferToText. rewrite Hslides. cbn [await bind].
    rewrite slide_lines_spec. reflexivity. }
  split; [exact Hx|]. split.
  - intros ->. dispatch_on Hext. rewrite Hx. split; reflexivity.
  - intros Hne.
    assert (Ht : JS.truthy (JS.trim pptText) = true).
    { destruct slides as [|s slides]; [congruence|].
      unfold pptText. cbn [map].
      destruct (join_first (JS.NL ++ JS.NL) (slide_block s)
                  (map slide_block slides)) as [tail ->].
      destruct (JS.trim (slide_block s ++ tail)) eqn:E; [|reflexivity].
      exfalso. revert E. apply (trim_solid _ 45%N); [|reflexivity].
      apply in_or_app. left. unfold slide_block. apply in_or_app. left.
      vm_compute. left. reflexivity. }
    dispatch_on Hext. rewrite Hx. cbn [bind]. rewrite Ht.
    split; reflexivity.
Qed.

(** A [txt], [csv] or [md] attachment, in either field, always yields a
    chunk: its label line followed by the clamped UTF-8 decoding of its
    bytes, which for ASCII bytes is the bytes themselves. *)
Theorem text_attachment (f : File) :
  In (getExt host (originalname f)) [JS.lit "txt"; JS.lit "csv"; JS.lit "md"] ->
  let content := JS.Buffer_toString_utf8 (buffer f) in
  contextFileStep host f
  = Next (TextChunk (JS.lit "[逐字稿附件文字：" ++ originalname f
                       ++ JS.lit "]" ++ JS.NL
                       ++ clampText content default_maxChars))
  /\ rubricFileStep host f
     = Next (JS.lit "[評分表附件文字：" ++ originalname f
               ++ JS.lit "]" ++ JS.NL
               ++ clampText content default_maxChars)
  /\ (Forall (fun b => (Byte.to_N b <= 127)%N) (buffer f) ->
      content = map Byte.to_N (buffer f)).
Proof.
  intros Hext content.
  assert (H : contextFileStep host f
              = Next (TextChunk (JS.lit "[逐字稿附件文字：" ++ originalname f
                                   ++ JS.lit "]" ++ JS.NL
                                   ++ clampText content default_maxChars))
              /\ rubricFileStep host f
                 = Next (JS.lit "[評分表附件文字：" ++ originalname f
                           ++ JS.lit "]" ++ JS.NL
                           ++ clampText content default_maxChars)).
  { destruct Hext as [E|[E|[E|[]]]]; symmetry in E; dispatch_on E;
      split; reflexivity. }
  destruct H as [H1 H2]. split; [exact H1|]. split; [exact H2|].
  apply utf8_ascii.
Qed.

Lemma excel_lines_first_failure (wb : Workbook worksheet)
    (csv_of : jsstring -> jsstring) (before after : list jsstring)
    (n : jsstring) (err : option jsstring) :
  (forall m, In m before ->
             XLSX_sheet_to_csv host (Sheets wb m) = Resolved (csv_of m)) ->
  XLSX_sheet_to_csv host (Sheets wb n) = Rejected err ->
  forall lines, excel_lines host wb (before ++ n :: after) lines = Throw err.
Proof.
  intros Hb Hn. induction before as [|m before IH]; intros lines.
  - change ([] ++ n :: after) with (n :: after). cbn [excel_lines].
    rewrite Hn. reflexivity.
  - change ((m :: before) ++ n :: after) with (m :: (before ++ n :: after)).
    cbn [excel_lines]. rewrite (Hb m) by (left; reflexivity). cbn [await bind].
    apply IH. intros k Hk. apply Hb. right. exact Hk.
Qed.

(** A spreadsheet, in either field: an exception of [XLSX.read], or of
    the CSV rendering of the first sheet that fails, stops the iteration
    with that exception; a workbook without sheets yields a chunk that
    is the label line alone. *)
Theorem excel_failure (f : File) :
  getExt host (originalname f) = JS.lit "xlsx"
  \/ getExt host (originalname f) = JS.lit "xls" ->
  (forall err,
     XLSX_read host (buffer f) = Rejected err ->
     contextFileStep host f = Throw err /\ rubricFileStep host f = Throw err)
  /\ (forall wb csv_of before n after err,
        XLSX_read host (buffer f) = Resolved wb ->
        SheetNames wb = before ++ n :: after ->
        (forall m, In m before ->
                   XLSX_sheet_to_csv host (Sheets wb m) = Resolved (csv_of m)) ->
        XLSX_sheet_to_csv host (Sheets wb n) = Rejected err ->
        contextFileStep host f = Throw err
        /\ rubricFileStep host f = Throw err)
  /\ (forall wb,
        XLSX_read host (buffer f) = Resolved wb ->
        SheetNames wb = [] ->
        contextFileStep host f
        = Next (TextChunk (JS.lit "[逐字稿附件Excel：" ++ originalname f
                             ++ JS.lit "]" ++ JS.NL))
        /\ rubricFileStep host f
           = Next (JS.lit "[評分表附件Excel：" ++ originalname f
                     ++ JS.lit "]" ++ JS.NL)).
Proof.
  intros Hext. split; [|split].
  - intros err Hr.
    assert (Hx : excelBufferToText host (buffer f) = Throw err)
      by (unfold excelBufferToText; rewrite Hr; reflexivity).
    destruct Hext as [E|E]; dispatch_on E; rewrite Hx; split; reflexivity.
  - intros wb csv_of before n after err Hr Hnames Hb Hn.
    assert (Hx : excelBufferToText host (buffer f) = Throw err).
    { unfold excelBufferToText. rewrite Hr. cbn [await bind]. rewrite Hnames.
      rewrite (excel_lines_first_failure wb csv_of before after n err Hb Hn).
      reflexivity. }
    destruct Hext as [E|E]; dispatch_on E; rewrite Hx; split; reflexivity.
  - intros wb Hr Hnames.
    assert (Hx : excelBufferToText host (buffer f) = Next []).
    { unfold excelBufferToText. rewrite Hr. cbn [await bind]. rewrite Hnames.
      reflexivity. }
    destruct Hext as [E|E]; dispatch_on E; rewrite Hx; cbn [bind];
      change (clampText [] default_maxChars) with (@nil JS.code_unit);
      rewrite !app_nil_r; split; reflexivity.
Qed.

Lemma prepare_context_Throw (req : Request) (pre post : list File) (f : File)
    (parsed : list jsstring * list ImageInput) (err : option jsstring) :
  contextFiles req = pre ++ f :: post ->
  contextLoop host pre [] [] = Next parsed ->
  contextFileStep host f = Throw err ->
  prepare host req = Throw err.
Proof.
  intros Hfiles Hpre Hf. unfold prepare. rewrite Hfiles.
  destruct parsed as [cs imgs].
  apply contextLoop_Next in Hpre as [items [HF [-> ->]]].
  rewrite (contextLoop_app host pre (f :: post) items HF).
  cbn [contextLoop bind]. rewrite Hf. reflexivity.
Qed.

Lemma prepare_rubric_Throw (req : Request) (pre post : list File) (f : File)
    (parsed : list jsstring * list ImageInput) (chunks : list jsstring)
    (err : option jsstring) :
  contextLoop host (contextFiles req) [] [] = Next parsed ->
  rubricFiles req = pre ++ f :: post ->
  rubricLoop host pre [] = Next chunks ->
  rubricFileStep host f = Throw err ->
  prepare host req = Throw err.
Proof.
  intros Hctx Hfiles Hpre Hf. unfold prepare. rewrite Hctx, Hfiles.
  cbn [bind].
  apply rubricLoop_Next in Hpre as [new [HF ->]].
  rewrite (rubricLoop_app host pre (f :: post) new HF).
  cbn [rubricLoop bind]. rewrite Hf. reflexivity.
Qed.

(** C8: for an attachment whose extension is [pdf], in either field.
    When the PDF parser returns, whatever text it returns, the
    attachment yields a text chunk and no error: when the extracted text
    is missing, empty or all white space the chunk is the label line
    followed by the substitute message (the PDF may be a scan, no text
    could be extracted), and otherwise it is the label line followed by
    the clamped, trimmed text.  When the PDF parser throws, the
    attachment yields no chunk: the exception leaves the branch, and
    once the attachments before it were processed the request is
    answered with status 500 and the message of the exception
    ([Unknown error] when it has none), the completion client not being
    called. *)
Theorem pdf_attachment (f : File) :
  getExt host (originalname f) = JS.lit "pdf" ->
  pdf_fallback = JS.lit "（此 PDF 可能為掃描檔，未能解析出文字）"
  /\ (forall data,
        pdfParse host (buffer f) = Resolved data ->
        (forallb JS.is_white_space (opt_string data) = true ->
         contextFileStep host f
         = Next (TextChunk (JS.lit "[逐字稿附件PDF：" ++ originalname f
                              ++ JS.lit "]" ++ JS.NL ++ pdf_fallback))
         /\ rubricFileStep host f
            = Next (JS.lit "[評分表附件PDF：" ++ originalname f
                      ++ JS.lit "]" ++ JS.NL ++ pdf_fallback))
        /\ (forallb JS.is_white_space (opt_string data) = false ->
            contextFileStep host f
            = Next (TextChunk (JS.lit "[逐字稿附件PDF：" ++ originalname f
                                 ++ JS.lit "]" ++ JS.NL
                                 ++ clampText (JS.trim (opt_string data))
                                              default_maxChars))
            /\ rubricFileStep host f
               = Next (JS.lit "[評分表附件PDF：" ++ originalname f
                         ++ JS.lit "]" ++ JS.NL
                         ++ clampText (JS.trim (opt_string data))
                                      default_maxChars)))
  /\ (forall err,
        pdfParse host (buffer f) = Rejected err ->
        contextFileStep host f = Throw err
        /\ rubricFileStep host f = Throw err
        /\ (forall req pre post parsed,
              contextFiles req = pre ++ f :: post ->
              contextLoop host pre [] [] = Next parsed ->
              generate host req
              = ({| status := 500;
                    body := Failure (JS.or_else (opt_string err)
                                                (JS.lit "Unknown error")) |},
                 []))
        /\ (forall req pre post parsed chunks,
              contextLoop host (contextFiles req) [] [] = Next parsed ->
              rubricFiles req = pre ++ f :: post ->
              rubricLoop host pre [] = Next chunks ->
              generate host req
              = ({| status := 500;
                    body := Failure (JS.or_else (opt_string err)
                                                (JS.lit "Unknown error")) |},
                 []))).
Proof.
  intros Hext. split; [reflexivity|]. split.
  - intros data Hdata. split; intros Hws.
    + apply trim_nil_iff in Hws. dispatch_on Hext. rewrite Hdata. simpl.
      rewrite Hws. split; reflexivity.
    + assert (Ht : JS.truthy (JS.trim (opt_string data)) = true).
      { destruct (JS.trim (opt_string data)) eqn:E; [|reflexivity].
        apply trim_nil_iff in E. congruence. }
      dispatch_on Hext. rewrite Hdata. simpl. rewrite Ht.
      split; reflexivity.
  - intros err Herr.
    assert (Hstep : contextFileStep host f = Throw err
                    /\ rubricFileStep host f = Throw err).
    { dispatch_on Hext. rewrite Herr. split; reflexivity. }
    destruct Hstep as [Hc Hr].
    split; [exact Hc|]. split; [exact Hr|]. split.
    + intros req pre post parsed Hfiles Hpre. unfold generate.
      rewrite (prepare_context_Throw req pre post f parsed err
                 Hfiles Hpre Hc).
      reflexivity.
    + intros req pre post parsed chunks Hctx Hfiles Hpre. unfold generate.
      rewrite (prepare_rubric_Throw req pre post f parsed chunks err
                 Hctx Hfiles Hpre Hr).
      reflexivity.
Qed.

(** An exception thrown by the PDF, Word or slide parser on an attachment
    is not handled where it occurs: when the attachments before it were
    processed, the request is answered with status 500 and the message
    of the exception ([Unknown error] when it has none), and the
    completion client is not called. *)
Theorem parser_exception (req : Request) (pre post : list File) (f : File)
    (err : option jsstring) :
  (getExt host (originalname f) = JS.lit "pdf"
   /\ pdfParse host (buffer f) = Rejected err)
  \/ (getExt host (originalname f) = JS.lit "docx"
      /\ mammoth_extractRawText host (buffer f) = Rejected err)
  \/ (getExt host (originalname f) = JS.lit "pptx"
      /\ PptxParser_extractText host (buffer f) = Rejected err) ->
  (forall parsed,
     contextFiles req = pre ++ f :: post ->
     contextLoop host pre [] [] = Next parsed ->
     generate host req
     = ({| status := 500;
           body := Failure (JS.or_else (opt_string err)
                                       (JS.lit "Unknown error")) |}, []))
  /\ (forall parsed chunks,
        contextLoop host (contextFiles req) [] [] = Next parsed ->
        rubricFiles req = pre ++ f :: post ->
        rubricLoop host pre [] = Next chunks ->
        generate host req
        = ({| status := 500;
              body := Failure (JS.or_else (opt_string err)
                                          (JS.lit "Unknown error")) |}, [])).
Proof.
  intros Hf.
  assert (Hstep : contextFileStep host f = Throw err
                  /\ rubricFileStep host f = Throw err).
  { destruct Hf as [[E Hr]|[[E Hr]|[E Hr]]]; dispatch_on E;
      unfold pptxBufferToText; rewrite Hr; split; reflexivity. }
  destruct Hstep as [Hc Hr]. split.
  - intros parsed Hfiles Hpre. unfold generate.
    rewrite (prepare_context_Throw req pre post f parsed err Hfiles Hpre Hc).
    reflexivity.
  - intros parsed chunks Hctx Hfiles Hpre. unfold generate.
    rewrite (prepare_rubric_Throw req pre post f parsed chunks err
               Hctx Hfiles Hpre Hr).
    reflexivity.
Qed.

End Parsers.

Lemma pdf_attachment_witness :
  contextFileStep quiet_host (file "scan.pdf" "%PDF")
  = Next (TextChunk (JS.lit "[逐字稿附件PDF：scan.pdf]" ++ JS.NL
                       ++ JS.lit "（此 PDF 可能為掃描檔，未能解析出文字）"))
  /\ generate failing_pdf_host
       (request (Some (JS.lit "hi")) [file "a.txt" "x"]
                [file "broken.pdf" "%PDF"])
     = ({| status := 500;
           body := Failure (JS.lit "Invalid PDF structure") |}, []).
Proof.
  split.
  - rewrite (proj1 (proj1 (proj1 (proj2 (pdf_attachment quiet_host
                                           (file "scan.pdf" "%PDF")
                                           ltac:(vm_compute; reflexivity)))
                             None ltac:(reflexivity))
                      ltac:(reflexivity))).
    vm_compute. reflexivity.
  - rewrite (proj2 (proj2 (proj2 (proj2 (proj2
               (pdf_attachment failing_pdf_host (file "broken.pdf" "%PDF")
                  ltac:(vm_compute; reflexivity)))
               (Some (JS.lit "Invalid PDF structure")) ltac:(reflexivity))))
               (request (Some (JS.lit "hi")) [file "a.txt" "x"]
                        [file "broken.pdf" "%PDF"])
               [] []
               ([JS.lit "[逐字稿附件文字：a.txt]" ++ JS.NL ++ JS.lit "x"], [])
               []
               ltac:(vm_compute; reflexivity) ltac:(reflexivity)
               ltac:(reflexivity)).
    vm_compute. reflexivity.
Defined.

(** C8 as stated fails: a PDF attachment on which the PDF parser throws
    yields no chunk, neither one with the extracted text nor one with
    the substitute message, and the request that carries it, although
    it has transcript text, is answered with status 500 and the message
    of the parser, without a call of the completion client. *)
Lemma pdf_extraction_fails_request :
  isSupportedPdfExt
    (getExt failing_pdf_host (originalname (file "scan.pdf" "%PDF"))) = true
  /\ (forall chunk,
        contextFileStep failing_pdf_host (file "scan.pdf" "%PDF")
        <> Next chunk)
  /\ (forall chunk,
        rubricFileStep failing_pdf_host (file "scan.pdf" "%PDF")
        <> Next chunk)
  /\ generate failing_pdf_host
       (request (Some (JS.lit "hi")) [file "scan.pdf" "%PDF"] [])
     = ({| status := 500;
           body := Failure (JS.lit "Invalid PDF structure") |}, []).
Proof.
  split; [vm_compute; reflexivity|]. split; [|split].
  - intros chunk. vm_compute. discriminate.
  - intros chunk. vm_compute. discriminate.
  - vm_compute. reflexivity.
Qed.

Lemma pptx_attachment_witness :
  contextFileStep failing_pdf_host (file "deck.pptx" "PK")
  = Next (TextChunk
            (JS.lit "[逐字稿附件PPTX：deck.pptx]" ++ JS.NL
               ++ JS.lit "--- Slide: 1 ---" ++ JS.NL
               ++ JS.lit "Title" ++ JS.NL ++ JS.lit "Body"
               ++ JS.NL ++ JS.NL
               ++ JS.lit "--- Slide: unknown ---" ++ JS.NL)).
Proof.
  rewrite (proj1 (proj2 (proj2
             (pptx_attachment failing_pdf_host (file "deck.pptx" "PK")
                [ {| slide_id := Some (JS.lit "1");
                     slide_text := Some [JS.lit "Title"; JS.lit "Body"] |};
                  {| slide_id := None; slide_text := None |} ]
                ltac:(vm_compute; reflexivity) ltac:(reflexivity)))
             ltac:(discriminate))).
  vm_compute. reflexivity.
Defined.

Lemma text_attachment_witness :
  contextFileStep quiet_host (file "notes.MD" "# hi")
  = Next (TextChunk (JS.lit "[逐字稿附件文字：notes.MD]" ++ JS.NL
                       ++ JS.lit "# hi")).
Proof.
  rewrite (proj1 (text_attachment quiet_host (file "notes.MD" "# hi")
                    ltac:(vm_compute; tauto))).
  vm_compute. reflexivity.
Defined.

Lemma excel_failure_witness :
  contextFileStep quiet_host (file "book.xls" "x") = Throw None.
Proof.
  apply (proj1 (excel_failure quiet_host (file "book.xls" "x")
                  ltac:(right; vm_compute; reflexivity)) None).
  reflexivity.
Defined.

Lemma parser_exception_witness :
  generate failing_pdf_host
    (request (Some (JS.lit "hi")) [file "a.txt" "x"; file "b.pdf" "y"] [])
  = ({| status := 500;
        body := Failure (JS.lit "Invalid PDF structure") |}, []).
Proof.
  rewrite (proj1 (parser_exception failing_pdf_host
                    (request (Some (JS.lit "hi"))
                       [file "a.txt" "x"; file "b.pdf" "y"] [])
                    [file "a.txt" "x"] [] (file "b.pdf" "y")
                    (Some (JS.lit "Invalid PDF structure"))
                    ltac:(left; split; [vm_compute; reflexivity | reflexivity]))
             ([JS.lit "[逐字稿附件文字：a.txt]" ++ JS.NL ++ JS.lit "x"], [])
             ltac:(reflexivity) ltac:(vm_compute; reflexivity)).
  vm_compute. reflexivity.
Defined.

(* ------------------------------------------------------------------ *)
(** ** When the completion client is called, and with what *)

Lemma items_nil (items : list Extraction) :
  chunks_of items = [] -> images_of items = [] -> items = [].
Proof. destruct items as [|[c|i] items]; simpl; congruence. Qed.

Lemma baseContext_trimmed (body : FormBody) :
  JS.trim (baseContext body) = baseContext body.
Proof.
  unfold baseContext, JS.or_else. rewrite !safe_default.
  destruct (JS.truthy _); apply trim_idempotent.
Qed.

Lemma mergedContext_solid (base : jsstring) (chunks : list jsstring) :
  chunks <> [] -> JS.trim (mergedContext base chunks) <> [].
Proof.
  intros Hne. destruct chunks as [|c chunks]; [congruence|].
  apply (trim_solid _ 12304%N); [|reflexivity].
  unfold mergedContext. cbn [List.length Nat.eqb negb].
  set (J := JS.join (JS.NL ++ JS.NL) (c :: chunks)).
  cbn [JS.join].
  apply in_or_app. right. apply in_or_app. right.
  apply in_or_app. left. apply in_or_app. right. apply in_or_app. right.
  apply in_or_app. left.
  vm_compute. left. reflexivity.
Qed.

Section Reach.

Context {json worksheet : Type} (host : Host json worksheet).

Lemma contextLoop_all (files : list File) (items : list Extraction) :
  Forall2 (fun f x => contextFileStep host f = Next x) files items ->
  contextLoop host files [] [] = Next (chunks_of items, images_of items).
Proof.
  intros H. rewrite <- (app_nil_r files).
  rewrite (contextLoop_app host files [] items H). reflexivity.
Qed.

Lemma rubricLoop_all (files : list File) (chunks : list jsstring) :
  Forall2 (fun f c => rubricFileStep host f = Next c) files chunks ->
  rubricLoop host files [] = Next chunks.
Proof.
  intros H. rewrite <- (app_nil_r files).
  rewrite (rubricLoop_app host files [] chunks H). reflexivity.
Qed.

(** The transcript requirement: when all attachments of both fields are
    processed, the request is answered with the missing-transcript
    rejection exactly when no transcript text was typed and no
    transcript file was submitted.  Any processed transcript file, even
    one with no content, satisfies the requirement, because its chunk
    comes with the banner of the field. *)
Theorem transcript_requirement (req : Request)
    (parsed : list jsstring * list ImageInput)
    (rubricTextChunks : list jsstring) :
  contextLoop host (contextFiles req) [] [] = Next parsed ->
  rubricLoop host (rubricFiles req) [] = Next rubricTextChunks ->
  (generate host req
   = ({| status := 400; body := Failure missing_transcript |}, [])
   <-> baseContext (req_body req) = [] /\ contextFiles req = [])
  /\ (baseContext (req_body req) = []
      <-> forallb JS.is_white_space
            (opt_string (form_contextDocuments (req_body req))) = true
          /\ forallb JS.is_white_space
               (opt_string (text (req_body req))) = true).
Proof.
  intros Hctx Hr. destruct parsed as [chunks images].
  pose proof Hctx as Hitems.
  apply contextLoop_Next in Hitems as [items [HF [Hc Hi]]].
  cbn [List.app] in Hc, Hi. subst chunks images.
  set (merged := mergedContext (baseContext (req_body req)) (chunks_of items)).
  assert (Hcond : negb (JS.truthy (safe (Some merged) []))
                  && Nat.eqb (List.length (images_of items)) 0 = true
                  <-> baseContext (req_body req) = [] /\ contextFiles req = []).
  { rewrite safe_default. cbn [opt_string]. split.
    - intros H. apply andb_true_iff in H as [Ht Hl].
      assert (Hm : JS.trim merged = [])
        by (destruct (JS.trim merged); [reflexivity | discriminate]).
      assert (Himg : images_of items = [])
        by (destruct (images_of items); [reflexivity | discriminate]).
      assert (Hch : chunks_of items = []).
      { destruct (chunks_of items) as [|c chunks] eqn:Ec; [reflexivity|].
        exfalso.
        apply (mergedContext_solid (baseContext (req_body req)) (c :: chunks));
          [discriminate | exact Hm]. }
      rewrite (items_nil items Hch Himg) in HF.
      inversion HF as [Hfiles|]. split; [|reflexivity].
      unfold merged, mergedContext in Hm. rewrite Hch in Hm.
      cbn [List.length Nat.eqb negb JS.join] in Hm.
      rewrite app_nil_r, baseContext_trimmed in Hm. exact Hm.
    - intros [Hb Hfiles]. rewrite Hfiles in HF. inversion HF; subst items.
      unfold merged, mergedContext. rewrite Hb. reflexivity. }
  split.
  - unfold generate, prepare. rewrite Hctx. cbn [bind]. rewrite Hr.
    cbn [bind fst snd]. fold merged.
    destruct (negb (JS.truthy (safe (Some merged) []))
              && Nat.eqb (List.length (images_of items)) 0) eqn:E.
    + split; [intros _; apply Hcond; reflexivity | reflexivity].
    + split.
      * unfold loadTemplate. destruct (template_txt host) as [t|]; cbn [bind].
        -- destruct (responses_create host _); intros H; discriminate H.
        -- intros H; discriminate H.
      * intros H. apply Hcond in H. discriminate H.
  - unfold baseContext, JS.or_else. rewrite !safe_default.
    rewrite <- !trim_nil_iff.
    destruct (JS.trim (opt_string (form_contextDocuments (req_body req))));
      cbn [JS.truthy]; split.
    + intros H. split; [reflexivity | exact H].
    + intros [_ H]. exact H.
    + intros H. discriminate H.
    + intros [H _]. discriminate H.
Qed.

(** The statuses of the handler and what they say about the completion
    client: 200 comes with [ok: true] after exactly one call; 400 comes
    with [ok: false] and no call; 500 comes with [ok: false] after at
    most one call; there is no other status. *)
Theorem response_shape (req : Request) :
  let r := fst (generate host req) in
  let calls := snd (generate host req) in
  (status r = 200%N /\ ok (body r) = true /\ List.length calls = 1%nat)
  \/ (status r = 400%N /\ ok (body r) = false /\ calls = [])
  \/ (status r = 500%N /\ ok (body r) = false
      /\ (List.length calls <= 1)%nat).
Proof.
  unfold generate.
  destruct (prepare host req) as [c|r|e] eqn:E.
  - destruct (responses_create host c); cbn; [left | right; right]; auto.
  - apply prepare_Return in E as [m ->]. cbn. right. left. auto.
  - cbn. right. right. auto.
Qed.

(** The completion client is called exactly when every attachment of
    both fields yields something, the template exists, and there is
    transcript text or an image.  The request it gets names the model of
    the environment ([gpt-5-mini] when none is set), carries the image
    inputs of the transcript attachments in submission order and no
    other, and its text is the template filled from the bundle of the
    two merged fields. *)
Theorem dispatched_request (req : Request) (request : CompletionRequest) :
  prepare host req = Next request
  <-> exists items rubricTextChunks template,
        Forall2 (fun f x => contextFileStep host f = Next x)
                (contextFiles req) items
        /\ Forall2 (fun f c => rubricFileStep host f = Next c)
                   (rubricFiles req) rubricTextChunks
        /\ template_txt host = Some template
        /\ (JS.trim (mergedContext (baseContext (req_body req))
                                   (chunks_of items)) <> []
            \/ images_of items <> [])
        /\ request
           = {| model := JS.or_else (opt_string (env_OPENAI_MODEL host))
                                    (JS.lit "gpt-5-mini");
                instructions := system_instructions;
                input_text :=
                  buildPrompt template
                    (payload
                       (buildInputBundle
                          (Some (mergedContext (baseContext (req_body req))
                                               (chunks_of items)))
                          (Some (mergedRubric (baseRubric (req_body req))
                                              rubricTextChunks))));
                input_images := images_of items |}.
Proof.
  split.
  - unfold prepare.
    destruct (contextLoop host (contextFiles req) [] []) as [[cs imgs]| |] eqn:Hc;
      cbn [bind]; try discriminate.
    destruct (rubricLoop host (rubricFiles req) []) as [rcs| |] eqn:Hr;
      cbn [bind fst snd]; try discriminate.
    apply contextLoop_Next in Hc as [items [HF [-> ->]]].
    apply rubricLoop_Next in Hr as [new [HR ->]].
    cbn [List.app].
    destruct (negb (JS.truthy (safe _ [])) && Nat.eqb _ 0) eqn:E;
      [discriminate|].
    unfold loadTemplate.
    destruct (template_txt host) as [t|] eqn:Ht; cbn [bind]; [|discriminate].
    intros H. injection H as <-.
    exists items, new, t. repeat (split; [assumption || reflexivity|]).
    split; [|reflexivity].
    rewrite safe_default in E. cbn [opt_string] in E.
    apply andb_false_iff in E as [E|E].
    + left. intros Hm. rewrite Hm in E. discriminate.
    + right. intros Hi. rewrite Hi in E. discriminate.
  - intros [items [rcs [t [HF [HR [Ht [Hv ->]]]]]]].
    unfold prepare.
    rewrite (contextLoop_all (contextFiles req) items HF). cbn [bind].
    rewrite (rubricLoop_all (rubricFiles req) rcs HR). cbn [bind fst snd].
    rewrite safe_default. cbn [opt_string].
    assert (E : negb (JS.truthy (JS.trim
                  (mergedContext (baseContext (req_body req)) (chunks_of items))))
                && Nat.eqb (List.length (images_of items)) 0 = false).
    { destruct Hv as [Hv|Hv].
      - destruct (JS.trim _); [congruence | reflexivity].
      - destruct (images_of items); [congruence | apply andb_false_r]. }
    rewrite E. unfold loadTemplate. rewrite Ht. reflexivity.
Qed.

End Reach.

Lemma transcript_requirement_witness :
  generate quiet_host (request None [file "empty.txt" ""] [])
  <> ({| status := 400; body := Failure missing_transcript |}, []).
Proof.
  intros H.
  apply (proj1 (transcript_requirement quiet_host
                  (request None [file "empty.txt" ""] [])
                  ([JS.lit "[逐字稿附件文字：empty.txt]" ++ JS.NL], []) []
                  ltac:(vm_compute; reflexivity) ltac:(reflexivity))) in H.
  destruct H as [_ H]. discriminate H.
Defined.

(* ------------------------------------------------------------------ *)
(** ** The two versions of the handler *)

Section Versions.

Context {json worksheet : Type} (host : Host json worksheet).

Lemma safe_of_safe (v : option jsstring) :
  safe (Some (safe v [])) [] = safe v [].
Proof. rewrite !safe_default. cbn [opt_string]. apply trim_idempotent. Qed.

Lemma buildInputBundle_of_safe (ctx rb : option jsstring) :
  buildInputBundle (Some (safe ctx [])) (Some (safe rb []))
  = buildInputBundle ctx rb.
Proof. unfold buildInputBundle. rewrite !safe_of_safe. reflexivity. Qed.

Lemma merged_without_chunks (base : jsstring) :
  mergedContext base [] = base /\ mergedRubric base [] = base.
Proof.
  unfold mergedContext, mergedRubric. cbn [List.length Nat.eqb negb JS.join].
  rewrite !app_nil_r. split; reflexivity.
Qed.

(** On a request without attachments whose form field [contextDocuments]
    is not blank, the handler of [src/server.js] prepares the prompt
    that the earlier handler prepares from the same body, with no image
    input, and fails on a missing template as the earlier one does.  On
    a blank [contextDocuments] the earlier handler answers 400 at once,
    also when the form field [text] holds a transcript, which the later
    handler accepts. *)
Theorem versions_agree (body : FormBody) :
  let req := {| req_body := body; contextFiles := []; rubricFiles := [] |} in
  (forallb JS.is_white_space (opt_string (form_contextDocuments body)) = false ->
   match ServerV0.prepare host body, Server.prepare host req with
   | Next r0, Next r1 =>
       input_text r1 = ServerV0.input r0 /\ input_images r1 = []
   | Throw e0, Throw e1 => e0 = e1
   | _, _ => False
   end)
  /\ (forallb JS.is_white_space (opt_string (form_contextDocuments body)) = true ->
      ServerV0.prepare host body
      = Return {| status := 400;
                  body := Failure ServerV0.missing_contextDocuments |}
      /\ (forallb JS.is_white_space (opt_string (text body)) = false ->
          forall c, Server.prepare host req
                    <> Return {| status := 400; body := Failure c |})).
Proof.
  intros req. split.
  - intros Hsolid.
    assert (Ht : JS.truthy (safe (form_contextDocuments body) []) = true).
    { rewrite safe_default.
      destruct (JS.trim (opt_string (form_contextDocuments body))) eqn:E;
        [|reflexivity].
      apply trim_nil_iff in E. congruence. }
    unfold ServerV0.prepare, Server.prepare. rewrite Ht.
    cbn [negb contextLoop rubricLoop bind fst snd req_body contextFiles
         rubricFiles req].
    destruct (merged_without_chunks (baseContext body)) as [-> _].
    destruct (merged_without_chunks (baseRubric body)) as [_ ->].
    assert (Hb : baseContext body = safe (form_contextDocuments body) []).
    { unfold baseContext, JS.or_else. rewrite Ht. reflexivity. }
    rewrite Hb. unfold baseRubric.
    rewrite safe_of_safe, Ht, buildInputBundle_of_safe.
    cbn [negb andb]. unfold loadTemplate.
    destruct (template_txt host); cbn [bind]; [split; reflexivity | reflexivity].
  - intros Hblank. split.
    + unfold ServerV0.prepare. rewrite safe_default.
      apply trim_nil_iff in Hblank. rewrite Hblank. reflexivity.
    + intros Htext c.
      assert (Hb : JS.truthy (baseContext body) = true).
      { unfold baseContext, JS.or_else. rewrite !safe_default.
        apply trim_nil_iff in Hblank. rewrite Hblank. cbn [JS.truthy].
        destruct (JS.trim (opt_string (text body))) eqn:E; [|reflexivity].
        apply trim_nil_iff in E. congruence. }
      unfold Server.prepare.
      cbn [contextLoop rubricLoop bind fst snd req_body contextFiles
           rubricFiles req].
      destruct (merged_without_chunks (baseContext body)) as [-> _].
      rewrite safe_default. cbn [opt_string].
      rewrite baseContext_trimmed, Hb. cbn [negb andb].
      unfold loadTemplate. destruct (template_txt host); cbn [bind];
        discriminate.
Qed.

End Versions.

Lemma versions_agree_witness :
  option_map input_text
    (match Server.prepare quiet_host
             {| req_body := {| text := None;
                               form_contextDocuments := Some (JS.lit " hello ");
                               rubricInput := Some (JS.lit "be kind") |};
                contextFiles := []; rubricFiles := [] |} with
     | Next r1 => Some r1
     | _ => None
     end)
  = option_map ServerV0.input
      (match ServerV0.prepare quiet_host
               {| text := None;
                  form_contextDocuments := Some (JS.lit " hello ");
                  rubricInput := Some (JS.lit "be kind") |} with
       | Next r0 => Some r0
       | _ => None
       end).
Proof.
  pose proof (proj1 (versions_agree quiet_host
                       {| text := None;
                          form_contextDocuments := Some (JS.lit " hello ");
                          rubricInput := Some (JS.lit "be kind") |})
                ltac:(vm_compute; reflexivity)) as H.
  destruct (ServerV0.prepare _ _) as [r0| |];
    destruct (Server.prepare _ _) as [r1| |]; try contradiction.
  - destruct H as [H _]. cbn [option_map]. rewrite H. reflexivity.
  - reflexivity.
Defined.

(* ------------------------------------------------------------------ *)
(** ** Requests with images only, and what merging keeps *)

Lemma join_keeps (sep c : jsstring) (parts : list jsstring) :
  In c parts -> exists before after, JS.join sep parts = before ++ c ++ after.
Proof.
  induction parts as [|x parts IH]; intros Hin; [contradiction|].
  destruct Hin as [->|Hin].
  - destruct (join_first sep c parts) as [tail ->]. exists [], tail.
    reflexivity.
  - destruct (IH Hin) as [b [a E]].
    destruct parts as [|y parts]; [contradiction|].
    change (JS.join sep (x :: y :: parts))
      with (x ++ sep ++ JS.join sep (y :: parts)).
    rewrite E. exists (x ++ sep ++ b), a.
    rewrite <- (app_assoc x (sep ++ b) (c ++ a)).
    rewrite <- (app_assoc sep b (c ++ a)). reflexivity.
Qed.

(** Merging drops nothing: the chunk of every attachment is a contiguous
    part of the merged text of its field, in full; there is no budget on
    the merged text. *)
Theorem merged_keeps_chunks (base chunk : jsstring) (chunks : list jsstring) :
  In chunk chunks ->
  (exists before after,
     mergedContext base chunks = before ++ chunk ++ after)
  /\ (exists before after,
        mergedRubric base chunks = before ++ chunk ++ after)
  /\ (JS.length chunk <= JS.length (mergedContext base chunks))
  /\ (JS.length chunk <= JS.length (mergedRubric base chunks)).
Proof.
  intros Hin.
  destruct (join_keeps (JS.NL ++ JS.NL) chunk chunks Hin) as [b [a E]].
  assert (Hlen : negb (Nat.eqb (List.length chunks) 0) = true)
    by (destruct chunks; [contradiction | reflexivity]).
  assert (Hmid : forall x p : jsstring,
            JS.join [] [x; p ++ b ++ chunk ++ a] = (x ++ p ++ b) ++ chunk ++ a).
  { intros x p. cbn [JS.join]. rewrite app_nil_l.
    rewrite <- (app_assoc x (p ++ b) (chunk ++ a)).
    rewrite <- (app_assoc p b (chunk ++ a)). reflexivity. }
  assert (Hc : mergedContext base chunks
               = (base ++ (JS.NL ++ JS.NL ++ context_banner ++ JS.NL) ++ b)
                   ++ chunk ++ a).
  { unfold mergedContext. rewrite Hlen, E. apply Hmid. }
  assert (Hr : mergedRubric base chunks
               = (base ++ (JS.NL ++ JS.NL ++ rubric_banner ++ JS.NL) ++ b)
                   ++ chunk ++ a).
  { unfold mergedRubric. rewrite Hlen, E. apply Hmid. }
  split; [eexists; eexists; exact Hc|].
  split; [eexists; eexists; exact Hr|].
  rewrite Hc, Hr. unfold JS.length. rewrite !length_app. lia.
Qed.

Lemma merged_keeps_chunks_witness :
  exists before after,
    mergedContext (JS.lit "hi") [JS.lit "one"; JS.lit "two"]
    = before ++ JS.lit "two" ++ after.
Proof.
  exact (proj1 (merged_keeps_chunks (JS.lit "hi") (JS.lit "two")
                  [JS.lit "one"; JS.lit "two"]
                  ltac:(right; left; reflexivity))).
Defined.

Section ImagesOnly.

Context {json worksheet : Type} (host : Host json worksheet).

(** A request with images and nothing else (no typed text, no other
    transcript attachment, no rubric) passes validation; the text put in
    the place of the transcript placeholder is then the payload's
    fallback text, the invitation to paste a transcript, and not the
    empty string. *)
Theorem image_only_request (req : Request) (items : list Extraction)
    (template : jsstring) :
  Forall2 (fun f x => contextFileStep host f = Next x) (contextFiles req) items ->
  chunks_of items = [] ->
  images_of items <> [] ->
  baseContext (req_body req) = [] ->
  baseRubric (req_body req) = [] ->
  rubricFiles req = [] ->
  template_txt host = Some template ->
  prepare host req
  = Next {| model := JS.or_else (opt_string (env_OPENAI_MODEL host))
                                (JS.lit "gpt-5-mini");
            instructions := system_instructions;
            input_text := buildPrompt template (payload []);
            input_images := images_of items |}
  /\ contextDocuments (payload []) = JS.lit "（此處貼上逐字稿或檢核點）".
Proof.
  intros HF Hc Hi Hb Hr Hfiles Ht. split; [|reflexivity].
  unfold prepare.
  rewrite (contextLoop_all host (contextFiles req) items HF). cbn [bind].
  rewrite Hfiles. cbn [rubricLoop bind fst snd].
  rewrite Hc, Hb, Hr.
  destruct (merged_without_chunks []) as [-> ->].
  assert (E : Nat.eqb (List.length (images_of items)) 0 = false)
    by (destruct (images_of items); [congruence | reflexivity]).
  rewrite E, andb_false_r. unfold loadTemplate. rewrite Ht. reflexivity.
Qed.

End ImagesOnly.

Lemma image_only_request_witness :
  prepare quiet_host photo_request
  = Next {| model := JS.lit "gpt-5-mini";
            instructions := system_instructions;
            input_text := JS.lit "（此處貼上逐字稿或檢核點）";
            input_images := images_of photo_items |}.
Proof.
  rewrite (proj1 (image_only_request quiet_host photo_request photo_items
                    (JS.lit "{{CONTEXT_DOCUMENTS}}")
                    ltac:(repeat constructor)
                    ltac:(reflexivity) ltac:(discriminate)
                    ltac:(reflexivity) ltac:(reflexivity)
                    ltac:(reflexivity) ltac:(reflexivity))).
  vm_compute. reflexivity.
Defined.

Lemma dispatched_request_witness :
  exists items rubricTextChunks template,
    Forall2 (fun f x => contextFileStep quiet_host f = Next x)
            (contextFiles photo_request) items
    /\ Forall2 (fun f c => rubricFileStep quiet_host f = Next c)
               (rubricFiles photo_request) rubricTextChunks
    /\ template_txt quiet_host = Some template
    /\ (JS.trim (mergedContext (baseContext (req_body photo_request))
                               (chunks_of items)) <> []
        \/ images_of items <> [])
    /\ {| model := JS.lit "gpt-5-mini";
          instructions := system_instructions;
          input_text := JS.lit "（此處貼上逐字稿或檢核點）";
          input_images := images_of photo_items |}
       = {| model := JS.or_else (opt_string (env_OPENAI_MODEL quiet_host))
                                (JS.lit "gpt-5-mini");
            instructions := system_instructions;
            input_text :=
              buildPrompt template
                (payload
                   (buildInputBundle
                      (Some (mergedContext (baseContext (req_body photo_request))
                                           (chunks_of items)))
                      (Some (mergedRubric (baseRubric (req_body photo_request))
                                          rubricTextChunks))));
            input_images := images_of items |}.
Proof.
  apply (proj1 (dispatched_request quiet_host photo_request
                  {| model := JS.lit "gpt-5-mini";
                     instructions := system_instructions;
                     input_text := JS.lit "（此處貼上逐字稿或檢核點）";
                     input_images := images_of photo_items |})).
  vm_compute. reflexivity.
Defined.
